(** * x402-langchain: the payment-required retry protocol

    A shallow embedding of [src/x402_langchain/payment.py]
    ([X402PaymentHandler]) and [src/x402_langchain/client.py]
    ([X402Client._request]), and the properties of the budget ledger and of
    the 402 -> pay -> retry flow proved over it.

    Conventions of the embedding.
    - A Python [float] is an IEEE 754 binary64 value: [spec_float] with the
      operations of [SpecFloat] at precision 53 and maximal exponent 1024
      (round to nearest, ties to even).  No real-number idealisation is made.
    - Everything the code asks of web3 or of requests is an event of an
      interaction tree without loops ([io]); the answer to an event is chosen
      by an oracle that sees the whole history, so theorems quantify over
      every behaviour of the chain and of the HTTP server.
    - A Python exception is a value of [exn]; a call that may raise returns
      an [outcome].  The mutable fields of an object are threaded as state,
      so that the state left behind by a raised exception is observable.
    - Formatted messages are kept as structured values (the fields that the
      f-string interpolates); [logger.info] calls are not modelled, except
      for the evaluation of their arguments where it can raise. *)

From Stdlib Require Import ZArith Ascii String List Bool Lia.
From Stdlib Require Import Floats.SpecFloat.
From Stdlib Require Floats.PrimFloat Floats.FloatOps.
From Stdlib Require QArith.QArith_base.
From stdpp Require Import gmap strings.

Set Warnings "-register-all".
Local Open Scope string_scope.
Local Open Scope Z_scope.

(** ** Python floats *)

Module PyFloat.

Definition prec : Z := 53.
Definition emax : Z := 1024.

Definition float : Type := spec_float.

Definition zero : float := S754_zero false.

Definition add : float -> float -> float := SFadd prec emax.
Definition sub : float -> float -> float := SFsub prec emax.
Definition mul : float -> float -> float := SFmul prec emax.

(** [x > y] and [x < y]; both are [False] as soon as one side is NaN. *)
Definition ltb : float -> float -> bool := SFltb.
Definition gtb (x y : float) : bool := ltb y x.

(** An [int] as an unrounded binary number, the exact operand of an integer
    true division. *)
Definition exact_of_Z (z : Z) : float :=
  match z with
  | Z0 => S754_zero false
  | Zpos m => S754_finite false m 0
  | Zneg m => S754_finite true m 0
  end.

(** [float(z)] for an [int], also the implicit conversion of the [int]
    operand of a mixed [float * int]: the nearest binary64.  (Python raises
    OverflowError beyond the binary64 range; the only integer converted by
    the code is [10**6].) *)
Definition of_Z (z : Z) : float := binary_normalize prec emax z 0 false.

(** [a / b] on two [int]s, [b <> 0]: the correctly rounded quotient. *)
Definition int_truediv (a b : Z) : float :=
  SFdiv prec emax (exact_of_Z a) (exact_of_Z b).

(** The amount written with six decimals, [k / 10**6] as the literal
    [0.dddddd] denotes it: the binary64 nearest to the decimal fraction. *)
Definition micro (k : Z) : float := int_truediv k 1000000.

(** [max(a, b)] of the builtin on two floats: the first argument is kept
    unless the second compares strictly greater. *)
Definition max (a b : float) : float := if gtb b a then b else a.

(** [bool(x)] on a float: zero of either sign is falsy, NaN is truthy. *)
Definition truthy (x : float) : bool :=
  match x with S754_zero _ => false | _ => true end.

(** Sign test used to state that a value is not negative: a zero with the
    sign bit clear, a positive finite number or plus infinity. *)
Definition nonneg (x : float) : bool :=
  match x with
  | S754_zero s | S754_infinity s | S754_finite s _ _ => negb s
  | S754_nan => false
  end.

(** The number a float stands for, as a rational: [m * 2^e] with its
    sign; none for the infinities and NaN. *)
Definition value (x : float) : option QArith_base.Q :=
  match x with
  | S754_zero _ => Some (QArith_base.inject_Z 0)
  | S754_finite s m e =>
      Some match e with
           | Zneg p => QArith_base.Qmake (cond_Zopp s (Zpos m)) (2 ^ p)%positive
           | _ => QArith_base.inject_Z (cond_Zopp s (Zpos m) * 2 ^ e)
           end
  | S754_infinity _ | S754_nan => None
  end.

(** The sum of the numbers that the floats of a list stand for, with no
    rounding. *)
Definition exact_sum (xs : list float) : option QArith_base.Q :=
  fold_right (fun x acc =>
    match value x, acc with
    | Some v, Some total => Some (QArith_base.Qplus v total)
    | _, _ => None
    end) (Some (QArith_base.inject_Z 0)) xs.

End PyFloat.

Abbreviation float := PyFloat.float.

(** ** JSON values, as [resp.json()] returns them *)

Inductive json : Type :=
| JNull
| JBool (b : bool)
| JInt (z : Z)
| JFloat (f : float)
| JStr (s : string)
| JArr (l : list json)
| JObj (d : gmap string json).

(** ** Exceptions *)

(** The text of an [X402APIError], by the f-string that builds it. *)
Inductive api_message : Type :=
| NoPrivateKey
    (* "Endpoint requires payment (HTTP 402) but no private_key was provided. ..." *)
| MissingRecipient (body : json)
    (* f"402 response missing recipient address: {body}" *)
| ApiStatus (status_code : Z) (text : string).
    (* f"API error {resp.status_code}: {resp.text[:500]}" *)

(** Exceptions.  [X402BudgetExceededError] is a subclass of
    [X402PaymentError]; its message interpolates the amount, the amount
    spent, the budget and the remaining budget.  The builtin exceptions are
    kept without their text.  [Foreign] stands for any other [Exception]
    that web3, eth_account or requests may raise. *)
Inductive exn : Type :=
| ValueError
| TypeError
| AttributeError
| OverflowError
| Foreign (class_name message : string)
| X402APIError (m : api_message)
| X402PaymentError (m : payment_message)
| X402BudgetExceededError (amount spent budget remaining : float)
with payment_message : Type :=
| FailedOnChain (tx_hex : string)
    (* f"Transaction {tx_hex} failed on-chain (status=0)" *)
| PaymentFailed (cause : exn).
    (* f"Payment failed: {exc}", raised [from exc] *)

(** [isinstance(e, X402PaymentError)], the test of [except X402PaymentError]. *)
Definition is_X402PaymentError (e : exn) : bool :=
  match e with
  | X402PaymentError _ | X402BudgetExceededError _ _ _ _ => true
  | _ => false
  end.

(** [isinstance(e, X402APIError)]. *)
Definition is_X402APIError (e : exn) : bool :=
  match e with X402APIError _ => true | _ => false end.

(** [e.__cause__], set by [raise ... from exc]. *)
Definition cause_of (e : exn) : option exn :=
  match e with
  | X402PaymentError (PaymentFailed c) => Some c
  | _ => None
  end.

(** What a call that may raise produces. *)
Definition outcome (A : Type) : Type := exn + A.

Definition raised {A} (r : outcome A) : bool :=
  match r with inl _ => true | inr _ => false end.

(** [int(x)] on a float: truncation toward zero; OverflowError on an
    infinity, ValueError on NaN. *)
Definition int_of_float (x : float) : outcome Z :=
  match x with
  | S754_zero _ => inr 0
  | S754_finite s m e =>
      inr (cond_Zopp s
             match e with
             | Zneg p => Z.shiftr (Zpos m) (Zpos p)
             | _ => Z.shiftl (Zpos m) e
             end)
  | S754_infinity _ => inl OverflowError
  | S754_nan => inl ValueError
  end.

(** ** Programs that talk to the outside *)

(** A finite interaction tree over the events [E]: the code has no loop. *)
Inductive io (E : Type -> Type) (A : Type) : Type :=
| Done (a : A)
| Vis {X : Type} (e : E X) (k : X -> io E A).

Arguments Done {E A} a.
Arguments Vis {E A X} e k.

Fixpoint io_bind {E A B} (p : io E A) (f : A -> io E B) : io E B :=
  match p with
  | Done a => f a
  | Vis e k => Vis e (fun x => io_bind (k x) f)
  end.

(** Running a program: [step] answers each event and moves the world. *)
Fixpoint run {E W A} (step : forall X, E X -> W -> W * X) (p : io E A) (w : W)
  : W * A :=
  match p with
  | Done a => (w, a)
  | Vis e k => let '(w', x) := step _ e w in run step (k x) w'
  end.

(** A method: object state [S] in, events, then the object state left
    behind together with the value returned or the exception raised. *)
Definition M (E : Type -> Type) (S A : Type) : Type :=
  S -> io E (S * outcome A).

Section Monad.
Context {E : Type -> Type} {S : Type}.

Definition ret {A} (a : A) : M E S A := fun s => Done (s, inr a).

Definition raise {A} (e : exn) : M E S A := fun s => Done (s, inl e).

Definition lift {A} (r : outcome A) : M E S A := fun s => Done (s, r).

Definition bind {A B} (m : M E S A) (f : A -> M E S B) : M E S B :=
  fun s => io_bind (m s) (fun sr =>
    match snd sr with
    | inl e => Done (fst sr, inl e)
    | inr a => f a (fst sr)
    end).

(** [try: m except Exception as exc: h exc] *)
Definition try_except {A} (m : M E S A) (h : exn -> M E S A) : M E S A :=
  fun s => io_bind (m s) (fun sr =>
    match snd sr with
    | inl e => h e (fst sr)
    | inr a => Done (fst sr, inr a)
    end).

(** An external call that returns or raises. *)
Definition call {A} (e : E (outcome A)) : M E S A :=
  fun s => Vis e (fun r => Done (s, r)).

Definition get : M E S S := fun s => Done (s, inr s).

Definition modify (f : S -> S) : M E S unit := fun s => Done (f s, inr tt).

End Monad.

Notation "x <~ c ;; k" := (bind c (fun x => k))
  (at level 200, c at level 99, k at level 200, right associativity).

(** ** payment.py *)

Module Payment.

(** One entry of [CHAIN_CONFIGS]. *)
Record chain_config : Type := {
  rpc_url : string;
  usdc_contract : string;
  chain_id : Z;
  label : string
}.

Definition CHAIN_CONFIGS : gmap string chain_config :=
  list_to_map [
    ("base",
     {| rpc_url := "https://mainnet.base.org";
        usdc_contract := "0x833589fCD6eDb6E08f4c7C32D4f71b54bdA02913";
        chain_id := 8453;
        label := "Base" |});
    ("base-sepolia",
     {| rpc_url := "https://sepolia.base.org";
        usdc_contract := "0x036CbD53842c5426634e7929541eC2318f3dCF7e";
        chain_id := 84532;
        label := "Base Sepolia" |});
    ("skale",
     {| rpc_url := "https://mainnet.skalenodes.com/v1/elated-tan-skat";
        usdc_contract := "0x5F795bb52dAc3085f578f4877D450e2929D2F13d";
        chain_id := 2046399126;
        label := "SKALE Europa" |})
  ].

Definition USDC_DECIMALS : Z := 6.

(** The objects web3 hands back; only the attributes the code reads. *)
Record account : Type := { address : string; key : string }.
Record contract_function : Type :=
  { fn_contract : string; fn_to : string; fn_value : Z }.
Record tx_params : Type := {
  tx_from : string;
  tx_nonce : Z;
  tx_chainId : Z;
  tx_gas : Z;
  tx_maxFeePerGas : Z;
  tx_maxPriorityFeePerGas : Z
}.
Record provider : Type := { endpoint_uri : string }.
Record unsigned_tx : Type := { tx_fields : string }.
Record signed_tx : Type := { raw_transaction : string }.
Record HexBytes : Type := { hex : string }.
Record receipt : Type := { status : Z }.   (* receipt["status"] *)

(** The calls made to web3 and eth_account, each with the type of what it
    returns; every one of them may raise. *)
Inductive ledgerE : Type -> Type :=
| HTTPProvider (endpoint_uri : string) : ledgerE (outcome provider)
    (* Web3.HTTPProvider(endpoint_uri) *)
| Web3 (p : provider) : ledgerE (outcome unit)
    (* Web3(p); the object made is the ledger that answers the later calls *)
| MiddlewareInject (middleware : string) (layer : Z) : ledgerE (outcome unit)
    (* self._w3.middleware_onion.inject(middleware, layer=layer) *)
| FromKey (private_key : string) : ledgerE (outcome account)
    (* self._w3.eth.account.from_key(private_key) *)
| Contract (a : string) : ledgerE (outcome string)
    (* self._w3.eth.contract(address=a, abi=ERC20_ABI); the contract
       object is known by the name it is given back under *)
| ToChecksumAddress (a : string) : ledgerE (outcome string)
    (* Web3.to_checksum_address(a) *)
| BalanceOf (contract owner : string) : ledgerE (outcome Z)
    (* self._usdc.functions.balanceOf(owner).call() *)
| GetTransactionCount (a : string) : ledgerE (outcome Z)
    (* self._w3.eth.get_transaction_count(a) *)
| Transfer (contract to : string) (value : Z) : ledgerE (outcome contract_function)
    (* self._usdc.functions.transfer(to, value) *)
| GasPrice : ledgerE (outcome Z)
    (* self._w3.eth.gas_price *)
| MaxPriorityFee : ledgerE (outcome Z)
    (* self._w3.eth.max_priority_fee *)
| BuildTransaction (f : contract_function) (p : tx_params) : ledgerE (outcome unsigned_tx)
    (* f.build_transaction(p) *)
| SignTransaction (tx : unsigned_tx) (k : string) : ledgerE (outcome signed_tx)
    (* self._w3.eth.account.sign_transaction(tx, k) *)
| SendRawTransaction (raw : string) : ledgerE (outcome HexBytes)
    (* self._w3.eth.send_raw_transaction(raw) *)
| WaitForTransactionReceipt (h : HexBytes) (timeout : Z) : ledgerE (outcome receipt).
    (* self._w3.eth.wait_for_transaction_receipt(h, timeout=timeout) *)

(** A call as it is recorded in the history, with its answer. *)
Inductive ledger_event : Type :=
| EvHTTPProvider (endpoint_uri : string) (r : outcome provider)
| EvWeb3 (p : provider) (r : outcome unit)
| EvMiddlewareInject (middleware : string) (layer : Z) (r : outcome unit)
| EvFromKey (private_key : string) (r : outcome account)
| EvContract (a : string) (r : outcome string)
| EvToChecksumAddress (a : string) (r : outcome string)
| EvBalanceOf (contract owner : string) (r : outcome Z)
| EvGetTransactionCount (a : string) (r : outcome Z)
| EvTransfer (contract to : string) (value : Z) (r : outcome contract_function)
| EvGasPrice (r : outcome Z)
| EvMaxPriorityFee (r : outcome Z)
| EvBuildTransaction (f : contract_function) (p : tx_params) (r : outcome unsigned_tx)
| EvSignTransaction (tx : unsigned_tx) (k : string) (r : outcome signed_tx)
| EvSendRawTransaction (raw : string) (r : outcome HexBytes)
| EvWaitForTransactionReceipt (h : HexBytes) (timeout : Z) (r : outcome receipt).

Definition record_event {X} (e : ledgerE X) : X -> ledger_event :=
  match e in ledgerE X return X -> ledger_event with
  | HTTPProvider u => EvHTTPProvider u
  | Web3 p => EvWeb3 p
  | MiddlewareInject m l => EvMiddlewareInject m l
  | FromKey pk => EvFromKey pk
  | Contract a => EvContract a
  | ToChecksumAddress a => EvToChecksumAddress a
  | BalanceOf c o => EvBalanceOf c o
  | GetTransactionCount a => EvGetTransactionCount a
  | Transfer c t v => EvTransfer c t v
  | GasPrice => EvGasPrice
  | MaxPriorityFee => EvMaxPriorityFee
  | BuildTransaction f p => EvBuildTransaction f p
  | SignTransaction tx k => EvSignTransaction tx k
  | SendRawTransaction raw => EvSendRawTransaction raw
  | WaitForTransactionReceipt h t => EvWaitForTransactionReceipt h t
  end.

(** The five steps of the transfer made inside the [try] of [pay]: nonce
    query, transaction build (with its fee queries), signing, submission and
    receipt wait.  [raised_in_try ev = Some exc] when [ev] is one of them
    and raised [exc]. *)
Definition raised_in_try (ev : ledger_event) : option exn :=
  match ev with
  | EvGetTransactionCount _ (inl e)
  | EvTransfer _ _ _ (inl e)
  | EvGasPrice (inl e)
  | EvMaxPriorityFee (inl e)
  | EvBuildTransaction _ _ (inl e)
  | EvSignTransaction _ _ (inl e)
  | EvSendRawTransaction _ (inl e)
  | EvWaitForTransactionReceipt _ _ (inl e) => Some e
  | _ => None
  end.

(** The chain and the web3 client: the answer to each call, given all the
    calls answered so far. *)
Definition ledger : Type := forall X, ledgerE X -> list ledger_event -> X.

Definition ledger_step (chain : ledger) X (e : ledgerE X)
    (history : list ledger_event) : list ledger_event * X :=
  let x := chain X e history in ((history ++ [record_event e x])%list, x).

(** The fields of an [X402PaymentHandler]. *)
Record handler : Type := {
  _chain_key : string;
  _config : chain_config;
  _max_budget : float;
  _total_spent : float;
  _used_tx_hashes : gset string;
  _account : account;
  _usdc : string
}.

Definition set_total_spent (v : float) (self : handler) : handler :=
  {| _chain_key := _chain_key self; _config := _config self;
     _max_budget := _max_budget self; _total_spent := v;
     _used_tx_hashes := _used_tx_hashes self; _account := _account self;
     _usdc := _usdc self |}.

Definition set_used_tx_hashes (v : gset string) (self : handler) : handler :=
  {| _chain_key := _chain_key self; _config := _config self;
     _max_budget := _max_budget self; _total_spent := _total_spent self;
     _used_tx_hashes := v; _account := _account self; _usdc := _usdc self |}.

(** The middleware that [__init__] injects. *)
Definition ExtraDataToPOAMiddleware : string := "ExtraDataToPOAMiddleware".

(** [X402PaymentHandler.__init__]: the fields of the new object, or the
    exception raised ([ValueError] on an unknown chain).  The [Web3] object
    that is made is the ledger itself and is not kept as a field; the
    contract object is kept under the name that [contract] returned. *)
Definition __init__ (private_key chain : string) (max_budget_usdc : float)
  : M ledgerE unit handler :=
  match CHAIN_CONFIGS !! chain with
  | None => raise ValueError
  | Some config =>
      (* Normalize private key *)
      let private_key :=
        if String.prefix "0x" private_key then private_key
        else "0x" ++ private_key in
      p <~ call (HTTPProvider (rpc_url config)) ;;
      _ <~ call (Web3 p) ;;
      (* POA middleware for Base and SKALE *)
      _ <~ call (MiddlewareInject ExtraDataToPOAMiddleware 0) ;;
      acct <~ call (FromKey private_key) ;;
      a <~ call (ToChecksumAddress (usdc_contract config)) ;;
      usdc <~ call (Contract a) ;;
      ret {| _chain_key := chain; _config := config;
             _max_budget := max_budget_usdc;
             _total_spent := PyFloat.zero;
             _used_tx_hashes := ∅;
             _account := acct; _usdc := usdc |}
  end.

(** The properties [chain], [total_spent] and [remaining_budget]. *)
Definition chain (self : handler) : string := _chain_key self.

Definition total_spent (self : handler) : float := _total_spent self.

Definition remaining_budget (self : handler) : float :=
  PyFloat.max PyFloat.zero (PyFloat.sub (_max_budget self) (_total_spent self)).

(** [raw / (10**USDC_DECIMALS)] *)
Definition from_raw (raw : Z) : float :=
  PyFloat.int_truediv raw (10 ^ USDC_DECIMALS).

(** [int(amount * (10**USDC_DECIMALS))] *)
Definition to_raw (amount : float) : outcome Z :=
  int_of_float (PyFloat.mul amount (PyFloat.of_Z (10 ^ USDC_DECIMALS))).

Definition get_balance : M ledgerE handler float :=
  self <~ get ;;
  raw <~ call (BalanceOf (_usdc self) (address (_account self))) ;;
  ret (from_raw raw).

Definition pay (amount : float) (recipient : string) : M ledgerE handler string :=
  self <~ get ;;
  (* Budget check *)
  if PyFloat.gtb (PyFloat.add (_total_spent self) amount) (_max_budget self)
  then
    raise (X402BudgetExceededError amount (_total_spent self)
             (_max_budget self) (remaining_budget self))
  else
    raw_amount <~ lift (to_raw amount) ;;
    recipient_addr <~ call (ToChecksumAddress recipient) ;;
    try_except
      (nonce <~ call (GetTransactionCount (address (_account self))) ;;
       f <~ call (Transfer (_usdc self) recipient_addr raw_amount) ;;
       gas_price <~ call GasPrice ;;
       max_priority_fee <~ call MaxPriorityFee ;;
       tx <~ call (BuildTransaction f
                     {| tx_from := address (_account self);
                        tx_nonce := nonce;
                        tx_chainId := chain_id (_config self);
                        tx_gas := 100000;
                        tx_maxFeePerGas := gas_price * 2;
                        tx_maxPriorityFeePerGas := max_priority_fee |}) ;;
       signed <~ call (SignTransaction tx (key (_account self))) ;;
       tx_hash <~ call (SendRawTransaction (raw_transaction signed)) ;;
       let tx_hex := hex tx_hash in
       (* Wait for confirmation *)
       receipt <~ call (WaitForTransactionReceipt tx_hash 60) ;;
       if negb (status receipt =? 1)%Z
       then raise (X402PaymentError (FailedOnChain tx_hex))
       else
         (* Track spending and used hashes *)
         _ <~ modify (fun self =>
                set_total_spent (PyFloat.add (_total_spent self) amount) self) ;;
         _ <~ modify (fun self =>
                set_used_tx_hashes (_used_tx_hashes self ∪ {[ tx_hex ]}) self) ;;
         ret tx_hex)
      (fun exc =>
         if is_X402PaymentError exc then raise exc
         else raise (X402PaymentError (PaymentFailed exc))).

(** One call of [pay] against a chain: the history and the handler left
    behind, and what the caller gets. *)
Definition run_pay (chain : ledger) (history : list ledger_event)
    (self : handler) (amount : float) (recipient : string)
  : list ledger_event * (handler * outcome string) :=
  run (ledger_step chain) (pay amount recipient self) history.

(** A sequence of calls of [pay] on one handler; the handlers after each
    call and the results, in order. *)
Fixpoint run_pays (chain : ledger) (history : list ledger_event)
    (self : handler) (calls : list (float * string))
  : list (handler * outcome string) :=
  match calls with
  | [] => []
  | (amount, recipient) :: rest =>
      let '(history', (self', r)) := run_pay chain history self amount recipient in
      (self', r) :: run_pays chain history' self' rest
  end.

End Payment.

(** ** client.py *)

Module Client.
Import Payment.

(** The keyword arguments of [self._session.request(method, url, ...)]. *)
Record http_request : Type := {
  rq_method : string;
  rq_url : string;
  rq_params : option (gmap string string);
  rq_json : option json;
  rq_headers : option (gmap string string);
  rq_timeout : Z
}.

(** A [requests.Response]: [resp_json] is what [resp.json()] returns or
    raises. *)
Record http_response : Type := {
  status_code : Z;
  text : string;
  resp_json : outcome json
}.

(** The fields of an [X402Client]; [_payment] is [None] when no private key
    was given. *)
Record client : Type := {
  _base_url : string;
  _timeout : Z;
  _payment : option handler
}.

Definition set_payment (p : option handler) (self : client) : client :=
  {| _base_url := _base_url self; _timeout := _timeout self; _payment := p |}.

(** What [_request] asks of its collaborators: the HTTP session, and the
    [pay] method of the payment handler object, which is given the state of
    that object and hands back the state it leaves. *)
Inductive clientE : Type -> Type :=
| SessionRequest (rq : http_request) : clientE (outcome http_response)
| PaymentPay (h : handler) (amount : float) (recipient : string)
    : clientE (handler * outcome string).

Inductive client_event : Type :=
| EvRequest (rq : http_request) (r : outcome http_response)
| EvPay (h : handler) (amount : float) (recipient : string)
    (r : handler * outcome string).

(** The HTTP requests and the payments of a history, in order. *)
Definition requests (evs : list client_event)
  : list (http_request * outcome http_response) :=
  flat_map (fun ev =>
    match ev with EvRequest rq r => [(rq, r)] | EvPay _ _ _ _ => [] end) evs.

Definition payments (evs : list client_event)
  : list (float * string * outcome string) :=
  flat_map (fun ev =>
    match ev with
    | EvPay _ amount recipient r => [(amount, recipient, snd r)]
    | EvRequest _ _ => []
    end) evs.

(** The server: its answer to a request given everything this client has
    done so far. *)
Definition server : Type :=
  list client_event -> http_request -> outcome http_response.

Record world : Type := {
  http_log : list client_event;
  chain_log : list ledger_event
}.

(** The collaborators of the running system: the server answers the
    requests, the handler's own [pay] runs against the chain. *)
Definition client_step (srv : server) (chain : ledger) X (e : clientE X)
    (w : world) : world * X :=
  match e in clientE X return world * X with
  | SessionRequest rq =>
      let r := srv (http_log w) rq in
      ({| http_log := (http_log w ++ [EvRequest rq r])%list;
          chain_log := chain_log w |}, r)
  | PaymentPay h amount recipient =>
      let hr := run_pay chain (chain_log w) h amount recipient in
      ({| http_log := (http_log w ++ [EvPay h amount recipient (snd hr)])%list;
          chain_log := fst hr |}, snd hr)
  end.

(** [obj.get(k, default)]: a [dict] method, AttributeError on a value that
    is not a JSON object. *)
Definition dict_get (obj : json) (k : string) (dflt : json) : outcome json :=
  match obj with
  | JObj d => inr (default dflt (d !! k))
  | _ => inl AttributeError
  end.

(** [bool(v)], the test of [if not v]. *)
Definition truthy (v : json) : bool :=
  match v with
  | JNull => false
  | JBool b => b
  | JInt z => negb (z =? 0)%Z
  | JFloat f => PyFloat.truthy f
  | JStr s => negb (String.eqb s "")
  | JArr l => match l with [] => false | _ => true end
  | JObj d => negb (Nat.eqb (size d) 0)
  end.

(** [recipient[:10] + "..."], evaluated for the arguments of [logger.info]
    before [pay] is called: it goes through for a string, which is then
    what [pay] receives, and raises otherwise (a list cannot be concatenated
    to a string, the other values cannot be sliced; a dict raises KeyError
    instead from Python 3.12 on). *)
Definition sliceable (v : json) : outcome string :=
  match v with
  | JStr s => inr s
  | _ => inl TypeError
  end.

(** A body of a 402 response that gives no recipient: it has no
    [payment_details], or [payment_details] is an object in which
    [recipient] is absent or falsy (null, the empty string, ...). *)
Definition lacks_recipient (body : gmap string json) : Prop :=
  match body !! "payment_details" with
  | None => True
  | Some (JObj details) =>
      match details !! "recipient" with
      | None => True
      | Some v => truthy v = false
      end
  | Some _ => False
  end.

Section Request.

(** The builtin [float] on a [str]: [None] where it raises ValueError. *)
Variable str_to_float : string -> option float.

(** [float(v)] *)
Definition float_of (v : json) : outcome float :=
  match v with
  | JStr s =>
      match str_to_float s with Some f => inr f | None => inl ValueError end
  | JFloat f => inr f
  | JInt z =>
      match PyFloat.of_Z z with
      | S754_infinity _ => inl OverflowError
      | f => inr f
      end
  | JBool b => inr (PyFloat.of_Z (if b then 1 else 0))
  | JNull | JArr _ | JObj _ => inl TypeError
  end.

(** The first request of a call, and the one reissued with the proof of
    payment. *)
Definition original_request (self : client) (method path : string)
    (params : option (gmap string string)) (json_body : option json)
  : http_request :=
  {| rq_method := method; rq_url := _base_url self ++ path;
     rq_params := params; rq_json := json_body; rq_headers := None;
     rq_timeout := _timeout self |}.

Definition retried_request (self : client) (method path : string)
    (params : option (gmap string string)) (json_body : option json)
    (tx_hash chain : string) : http_request :=
  {| rq_method := method; rq_url := _base_url self ++ path;
     rq_params := params; rq_json := json_body;
     rq_headers :=
       Some (<["X-Payment-TxHash" := tx_hash]>
               (<["X-Payment-Chain" := chain]> ∅));
     rq_timeout := _timeout self |}.

(** [self._payment.pay(amount, recipient)] *)
Definition payment_pay (amount : float) (recipient : string)
  : M clientE client string :=
  fun self =>
    match _payment self with
    | Some h =>
        Vis (PaymentPay h amount recipient)
          (fun hr => Done (set_payment (Some (fst hr)) self, snd hr))
    | None => Done (self, inl AttributeError)
    end.

(** [self._payment.chain] *)
Definition payment_chain : M clientE client string :=
  fun self =>
    match _payment self with
    | Some h => Done (self, inr (Payment.chain h))
    | None => Done (self, inl AttributeError)
    end.

Definition _request (method path : string)
    (params : option (gmap string string)) (json_body : option json)
  : M clientE client json :=
  self <~ get ;;
  resp <~ call (SessionRequest (original_request self method path params json_body)) ;;
  resp <~
    (* x402 payment flow *)
    (if (status_code resp =? 402)%Z then
       match _payment self with
       | None => raise (X402APIError NoPrivateKey)
       | Some _ =>
           body <~ lift (resp_json resp) ;;
           payment_details <~ lift (dict_get body "payment_details" (JObj ∅)) ;;
           amount_str <~ lift (dict_get payment_details "amount" (JStr "0")) ;;
           recipient <~ lift (dict_get payment_details "recipient" JNull) ;;
           if negb (truthy recipient)
           then raise (X402APIError (MissingRecipient body))
           else
             amount <~ lift (float_of amount_str) ;;
             recipient <~ lift (sliceable recipient) ;;
             tx_hash <~ payment_pay amount recipient ;;
             (* Retry with payment proof *)
             chain <~ payment_chain ;;
             call (SessionRequest
                     (retried_request self method path params json_body
                        tx_hash chain))
       end
     else ret resp) ;;
  if (400 <=? status_code resp)%Z
  then raise (X402APIError (ApiStatus (status_code resp)
                              (substring 0 500 (text resp))))
  else lift (resp_json resp).

(** One call of [_request] by a client, against a server and a chain whose
    history so far is [history]. *)
Definition run_request (srv : server) (chain : ledger)
    (history : list ledger_event) (self : client) (method path : string)
    (params : option (gmap string string)) (json_body : option json)
  : world * (client * outcome json) :=
  run (client_step srv chain) (_request method path params json_body self)
    {| http_log := []; chain_log := history |}.

End Request.

End Client.

(** ** The conversion the specification asks for *)

(** [round(x)] on a float: the nearest integer, ties to the even one;
    OverflowError on an infinity, ValueError on NaN. *)
Definition round_of_float (x : float) : outcome Z :=
  match x with
  | S754_zero _ => inr 0
  | S754_finite s m e =>
      inr (cond_Zopp s
             match e with
             | Zneg p =>
                 let q := Z.shiftr (Zpos m) (Zpos p) in
                 let r := Z.land (Zpos m) (Z.ones (Zpos p)) in
                 let half := Z.shiftl 1 (Zpos p - 1) in
                 match (r ?= half) with
                 | Lt => q
                 | Eq => if Z.even q then q else q + 1
                 | Gt => q + 1
                 end
             | _ => Z.shiftl (Zpos m) e
             end)
  | S754_infinity _ => inl OverflowError
  | S754_nan => inl ValueError
  end.

(** The specification's conversion, [raw = round(amount * 10^decimals)],
    to be compared with [Payment.to_raw]. *)
Definition spec_to_raw (amount : float) : outcome Z :=
  round_of_float (PyFloat.mul amount (PyFloat.of_Z (10 ^ Payment.USDC_DECIMALS))).

(** ** Collaborators used in the examples, after tests/conftest.py *)

Module Mock.
Import Payment Client.

Definition TEST_PRIVATE_KEY : string :=
  "0xaaaaaaaaaaaaaaaaaaaaaaaaaaaaaaaaaaaaaaaaaaaaaaaaaaaaaaaaaaaaaaaa".
Definition TEST_WALLET_ADDRESS : string :=
  "0x1234567890123456789012345678901234567890".
Definition TEST_RECIPIENT_ADDRESS : string :=
  "0x0987654321098765432109876543210987654321".

(** A chain on which every call goes through and the receipt carries
    [receipt_status]. *)
Definition mock_w3 (receipt_status : Z) : ledger :=
  fun X e _ =>
    match e in ledgerE X return X with
    | HTTPProvider u => inr {| endpoint_uri := u |}
    | Web3 _ => inr tt
    | MiddlewareInject _ _ => inr tt
    | FromKey pk => inr {| address := TEST_WALLET_ADDRESS; key := pk |}
    | Contract a => inr a
    | ToChecksumAddress a => inr a
    | BalanceOf _ _ => inr 10000000
    | GetTransactionCount _ => inr 42
    | Transfer c t v => inr {| fn_contract := c; fn_to := t; fn_value := v |}
    | GasPrice => inr 1000000000
    | MaxPriorityFee => inr 1000000000
    | BuildTransaction _ _ => inr {| tx_fields := "0x" |}
    | SignTransaction _ _ => inr {| raw_transaction := "0xf86c" |}
    | SendRawTransaction _ => inr {| hex := "0x01" |}
    | WaitForTransactionReceipt _ _ => inr {| status := receipt_status |}
    end.

(** A chain whose node cannot be reached: the nonce query raises. *)
Definition mock_w3_rpc_down : ledger :=
  fun X e history =>
    match e in ledgerE X return X with
    | GetTransactionCount _ => inl (Foreign "Exception" "RPC connection failed")
    | e => mock_w3 1 _ e history
    end.

(** A handler on Base with the given budget and amount spent. *)
Definition payment_handler (budget spent : float) : handler :=
  {| _chain_key := "base";
     _config :=
       {| rpc_url := "https://mainnet.base.org";
          usdc_contract := "0x833589fCD6eDb6E08f4c7C32D4f71b54bdA02913";
          chain_id := 8453;
          label := "Base" |};
     _max_budget := budget;
     _total_spent := spent;
     _used_tx_hashes := ∅;
     _account := {| address := TEST_WALLET_ADDRESS; key := TEST_PRIVATE_KEY |};
     _usdc := "0x833589fCD6eDb6E08f4c7C32D4f71b54bdA02913" |}.

(** The builtin [float] on the plain decimal literals [ddd] and [ddd.ddd]
    (digits, at most one point, at least one digit), where it is the
    binary64 nearest to the decimal number; [None] on every other string.
    It stands for the builtin in the examples, which only convert "0",
    "0.001" and "invalid". *)
Definition digit_of (c : Ascii.ascii) : option Z :=
  let n := Z.of_nat (Ascii.nat_of_ascii c) - 48 in
  if (0 <=? n) && (n <=? 9) then Some n else None.

Fixpoint read_digits (s : string) (acc count : Z) : Z * Z * string :=
  match s with
  | String c s' =>
      match digit_of c with
      | Some d => read_digits s' (10 * acc + d) (count + 1)
      | None => (acc, count, s)
      end
  | EmptyString => (acc, count, s)
  end.

Definition float_of_decimal (s : string) : option float :=
  let '(int_part, n1, rest) := read_digits s 0 0 in
  match rest with
  | EmptyString =>
      if 0 <? n1 then Some (PyFloat.int_truediv int_part 1) else None
  | String "."%char rest =>
      let '(all, n2, rest) := read_digits rest int_part 0 in
      match rest with
      | EmptyString =>
          if 0 <? n1 + n2 then Some (PyFloat.int_truediv all (10 ^ n2))
          else None
      | _ => None
      end
  | _ => None
  end.

(** [x402_client_with_payment]: a client whose handler has a budget of 1.0
    and has spent nothing. *)
Definition x402_client_with_payment : client :=
  {| _base_url := "https://test.example.com";
     _timeout := 30;
     _payment := Some (payment_handler (PyFloat.of_Z 1) PyFloat.zero) |}.

(** [x402_client_no_payment] *)
Definition x402_client_no_payment : client :=
  {| _base_url := "https://test.example.com";
     _timeout := 30;
     _payment := None |}.

(** A 402 response with the given [payment_details], and its body. *)
Definition payment_required_fields (details : gmap string json)
  : gmap string json :=
  <["error" := JStr "Payment required"]>
    (<["payment_details" := JObj details]> ∅).

Definition payment_required_body (details : gmap string json) : json :=
  JObj (payment_required_fields details).

Definition payment_required (details : gmap string json) : http_response :=
  {| status_code := 402; text := "Payment required";
     resp_json := inr (payment_required_body details) |}.

(** [MOCK_API_RESPONSE_402] *)
Definition mock_response_402 : http_response :=
  payment_required
    (<["amount" := JStr "0.001"]>
       (<["recipient" := JStr TEST_RECIPIENT_ADDRESS]> ∅)).

Definition mock_response_200 : http_response :=
  {| status_code := 200; text := "{}"; resp_json := inr (JObj ∅) |}.

(** A server that answers the first request with [first] and every later
    one with [later]. *)
Definition mock_session (first later : http_response) : server :=
  fun log _ =>
    match log with
    | [] => inr first
    | _ => inr later
    end.

(** [payment_details] as unhappy servers send them. *)
Definition details_amount_only (amount : string) : gmap string json :=
  <["amount" := JStr amount]> ∅.


Definition details_with (amount : string) : gmap string json :=
  <["amount" := JStr amount]>
    (<["recipient" := JStr TEST_RECIPIENT_ADDRESS]> ∅).

(** One call [_request("GET", "/api/paid")] by the client with a handler,
    to a server that answers 402 with [details] every time. *)
Definition get_paid (details : gmap string json)
  : world * (client * outcome json) :=
  run_request float_of_decimal
    (mock_session (payment_required details) (payment_required details))
    (mock_w3 1) [] x402_client_with_payment "GET" "/api/paid" None None.

End Mock.

(** ** client.py: the constructor and the public methods *)

Module X402Client.
Import Payment Client.

Definition DEFAULT_BASE_URL : string := "https://x402-api.onrender.com".
Definition DEFAULT_TIMEOUT : Z := 30.

(** [s.rstrip(c)] for a one-character [c]: every trailing [c] is removed. *)
Fixpoint rstrip (c : ascii) (s : string) : string :=
  match s with
  | EmptyString => EmptyString
  | String a s' =>
      match rstrip c s' with
      | EmptyString =>
          if Ascii.eqb a c then EmptyString else String a EmptyString
      | r => String a r
      end
  end.

(** [X402Client.__init__].  [private_key] is [None] or a string, and
    [if private_key:] is false on both [None] and the empty string.  The
    [requests.Session] is the transport, which the embedding keeps outside
    the object (the [server]); creating it and setting its User-Agent make
    no call. *)
Definition __init__ (private_key : option string) (base_url chain : string)
    (max_budget_usdc : float) (timeout : Z) : M ledgerE unit client :=
  let base_url := rstrip "/" base_url in
  match private_key with
  | Some k =>
      if String.eqb k "" then
        ret {| _base_url := base_url; _timeout := timeout; _payment := None |}
      else
        p <~ Payment.__init__ k chain max_budget_usdc ;;
        ret {| _base_url := base_url; _timeout := timeout; _payment := Some p |}
  | None =>
      ret {| _base_url := base_url; _timeout := timeout; _payment := None |}
  end.

(** The property [payment_handler]. *)
Definition payment_handler (self : client) : option handler := _payment self.

(** The end of [search] and of [list_services]:
    [data] itself when it is a list, else
    [data.get("services", data.get("data", []))]. *)
Definition services_of (data : json) : outcome json :=
  match data with
  | JArr _ => inr data
  | _ =>
      match dict_get data "data" (JArr []) with
      | inl e => inl e
      | inr dflt => dict_get data "services" dflt
      end
  end.

Section Methods.

Variable str_to_float : string -> option float.

Definition search (query : string) : M clientE client json :=
  data <~ _request str_to_float "GET" "/api/services"
            (Some {[ "q" := query ]}) None ;;
  lift (services_of data).

Definition list_services : M clientE client json :=
  data <~ _request str_to_float "GET" "/api/services" None None ;;
  lift (services_of data).

Definition call_api (path : string) (params : option (gmap string string))
  : M clientE client json :=
  _request str_to_float "GET" path params None.

Definition get_info : M clientE client json :=
  _request str_to_float "GET" "/" None None.

Definition web_search (query : string) : M clientE client json :=
  _request str_to_float "GET" "/api/search" (Some {[ "q" := query ]}) None.

Definition scrape (url : string) : M clientE client json :=
  _request str_to_float "GET" "/api/scrape" (Some {[ "url" := url ]}) None.

Definition weather (city : string) : M clientE client json :=
  _request str_to_float "GET" "/api/weather" (Some {[ "city" := city ]}) None.

Definition crypto (coin : string) : M clientE client json :=
  _request str_to_float "GET" "/api/crypto" (Some {[ "coin" := coin ]}) None.

Definition generate_image (prompt : string) : M clientE client json :=
  _request str_to_float "GET" "/api/image" (Some {[ "prompt" := prompt ]}) None.

(** One call of a method by a client, against a server and a chain. *)
Definition run_method {A} (srv : server) (chain : ledger)
    (history : list ledger_event) (self : client) (m : M clientE client A)
  : world * (client * outcome A) :=
  run (client_step srv chain) (m self)
    {| http_log := []; chain_log := history |}.

End Methods.

End X402Client.

(** ** payment.py: the remaining properties of the handler *)

Module X402PaymentHandler.
Import Payment.

Definition chain_label (self : handler) : string := label (_config self).

Definition address (self : handler) : string := Payment.address (_account self).

End X402PaymentHandler.

(** ** tool.py *)

Module X402BazaarTool.
Import Payment Client.

(** The fields of an [X402BazaarTool]. *)
Record tool : Type := {
  name : string;
  description : string;
  endpoint : string;
  param_name : string;
  _client : client
}.

Definition set_client (c : client) (self : tool) : tool :=
  {| name := name self; description := description self;
     endpoint := endpoint self; param_name := param_name self;
     _client := c |}.

(** [X402BazaarTool.__init__]: the four string fields go to the pydantic
    model, then the client is made. *)
Definition __init__ (name description endpoint param_name : string)
    (private_key : option string) (chain : string) (max_budget_usdc : float)
    (base_url : string) : M ledgerE unit tool :=
  c <~ X402Client.__init__ private_key base_url chain max_budget_usdc
         X402Client.DEFAULT_TIMEOUT ;;
  ret {| name := name; description := description; endpoint := endpoint;
         param_name := param_name; _client := c |}.

(** The factory class methods. *)
Definition search (private_key : option string) (chain : string)
    (max_budget_usdc : float) : M ledgerE unit tool :=
  __init__ "x402_search_marketplace"
    ("Search the x402 Bazaar marketplace for API services. "
     ++ "Input is a search query. Returns matching services with "
     ++ "name, description, price, and endpoint URL.")
    "/api/services" "q" private_key chain max_budget_usdc
    X402Client.DEFAULT_BASE_URL.

Definition web_search (private_key chain : string) (max_budget_usdc : float)
  : M ledgerE unit tool :=
  __init__ "x402_web_search"
    ("Search the web using x402 Bazaar's search API (DuckDuckGo). "
     ++ "Costs 0.001 USDC per query, paid automatically in USDC. "
     ++ "Input is the search query. Returns web search results.")
    "/api/search" "q" (Some private_key) chain max_budget_usdc
    X402Client.DEFAULT_BASE_URL.

Definition scrape (private_key chain : string) (max_budget_usdc : float)
  : M ledgerE unit tool :=
  __init__ "x402_scrape"
    ("Scrape a webpage and extract its content as markdown "
     ++ "using x402 Bazaar's scraper API. Costs 0.002 USDC per page. "
     ++ "Input is the full URL to scrape (e.g., https://example.com).")
    "/api/scrape" "url" (Some private_key) chain max_budget_usdc
    X402Client.DEFAULT_BASE_URL.

Definition weather (private_key chain : string) (max_budget_usdc : float)
  : M ledgerE unit tool :=
  __init__ "x402_weather"
    ("Get current weather data for a city using x402 Bazaar's "
     ++ "weather API. Costs 0.001 USDC per query. "
     ++ "Input is the city name (e.g., 'Paris', 'New York').")
    "/api/weather" "city" (Some private_key) chain max_budget_usdc
    X402Client.DEFAULT_BASE_URL.

Definition crypto (private_key chain : string) (max_budget_usdc : float)
  : M ledgerE unit tool :=
  __init__ "x402_crypto"
    ("Get current cryptocurrency prices using x402 Bazaar's "
     ++ "crypto API. Costs 0.001 USDC per query. "
     ++ "Input is the coin name (e.g., 'bitcoin', 'ethereum', 'solana').")
    "/api/crypto" "coin" (Some private_key) chain max_budget_usdc
    X402Client.DEFAULT_BASE_URL.

Definition image (private_key chain : string) (max_budget_usdc : float)
  : M ledgerE unit tool :=
  __init__ "x402_image"
    ("Generate an image using DALL-E 3 via x402 Bazaar's image API. "
     ++ "Costs 0.05 USDC per image. "
     ++ "Input is a text description of the image to generate.")
    "/api/image" "prompt" (Some private_key) chain max_budget_usdc
    X402Client.DEFAULT_BASE_URL.

(** A method of the client called on [self._client]: the client is an
    object the tool refers to, so what the method leaves of it stays. *)
Definition with_client {A} (m : M clientE client A) : M clientE tool A :=
  fun self =>
    io_bind (m (_client self))
      (fun cr => Done (set_client (fst cr) self, snd cr)).

Section Run.

Variable str_to_float : string -> option float.

(** The builtin [str] on a parsed JSON value and on an exception. *)
Variable str_of_json : json -> string.
Variable str_of_exn : exn -> string.

Definition _run (query : string) : M clientE tool string :=
  self <~ get ;;
  try_except
    (result <~ with_client
                 (X402Client.call_api str_to_float (endpoint self)
                    (Some {[ param_name self := query ]})) ;;
     ret (str_of_json result))
    (fun exc =>
       ret ("Error calling x402 Bazaar (" ++ endpoint self ++ "): "
            ++ str_of_exn exc)).

(** One call of [_run] by a tool, against a server and a chain. *)
Definition run_tool (srv : server) (chain : ledger)
    (history : list ledger_event) (self : tool) (query : string)
  : world * (tool * outcome string) :=
  run (client_step srv chain) (_run query self)
    {| http_log := []; chain_log := history |}.

End Run.

End X402BazaarTool.

(** ** Observations on a history of the chain *)

(** The transactions submitted, with the answer to each submission. *)
Definition submissions (evs : list Payment.ledger_event)
  : list (string * outcome Payment.HexBytes) :=
  flat_map (fun ev =>
    match ev with
    | Payment.EvSendRawTransaction raw r => [(raw, r)]
    | _ => []
    end) evs.

Import Payment Client.

(** The scenario of the specification: budget 1.00, payments of 0.30 and
    0.50. *)
Definition scenario_handler : handler :=
  Mock.payment_handler (PyFloat.of_Z 1) PyFloat.zero.

Definition scenario_calls : list (float * string) :=
  [(PyFloat.micro 300000, Mock.TEST_RECIPIENT_ADDRESS);
   (PyFloat.micro 500000, Mock.TEST_RECIPIENT_ADDRESS)].

Definition scenario_history : list ledger_event :=
  fst (run (ledger_step (Mock.mock_w3 1))
         (__init__ Mock.TEST_PRIVATE_KEY "base" (PyFloat.of_Z 1) tt) []).

(** What the specification's scenario leaves behind: budget 1.00, payments
    of 0.30 and 0.50 confirmed. *)
Definition after_two_payments : handler :=
  Mock.payment_handler (PyFloat.of_Z 1)
    (PyFloat.add (PyFloat.add PyFloat.zero (PyFloat.micro 300000))
       (PyFloat.micro 500000)).

(** * Properties of the payment handler *)

(** Symbolic execution of [pay]: one case per answer of the chain. *)
Ltac ask chain :=
  match goal with
  | |- context [chain ?X ?e ?h] =>
      let r := fresh "r" in
      let exc := fresh "exc" in
      destruct (chain X e h) as [exc | r]; cbn
  end.

Ltac pay_exec chain :=
  unfold run_pay, pay, bind, get, try_except, call, lift, raise, modify, ret,
    ledger_step;
  cbn;
  match goal with
  | |- context [PyFloat.gtb ?a ?b] => destruct (PyFloat.gtb a b) eqn:?; cbn
  end;
  [ | match goal with
      | |- context [to_raw ?a] =>
          let raw := fresh "raw" in
          destruct (to_raw a) as [? | raw] eqn:?; cbn
      end;
      [ | ask chain; [ | repeat (ask chain) ] ] ];
  try match goal with
      | |- context [Z.eqb (status ?rc) 1] =>
          destruct (Z.eqb_spec (status rc) 1); cbn
      end;
  try match goal with
      | |- context [is_X402PaymentError ?e] =>
          destruct (is_X402PaymentError e) eqn:?; cbn
      end.

(** The events a run has added to the history. *)
Ltac trace_done :=
  first [ exact (eq_sym (app_nil_r _))
        | rewrite <- ?app_assoc; reflexivity ].

Ltac in_cases H :=
  cbn in H;
  repeat (destruct H as [H | H]; [try discriminate H; try subst | ]);
  try contradiction.

(** A call of [pay] that returns has passed the budget check and has added
    the amount and the transaction identifier, and nothing else. *)
Lemma pay_returns chain history self amount recipient tx :
  snd (snd (run_pay chain history self amount recipient)) = inr tx ->
  PyFloat.gtb (PyFloat.add (_total_spent self) amount) (_max_budget self) = false /\
  fst (snd (run_pay chain history self amount recipient)) =
    set_used_tx_hashes (_used_tx_hashes self ∪ {[ tx ]})
      (set_total_spent (PyFloat.add (_total_spent self) amount) self).
Proof.
  pay_exec chain; intros H; try discriminate H.
  injection H as <-. split; reflexivity.
Qed.

(** A call of [pay] that raises leaves the handler as it was. *)
Lemma pay_raises chain history self amount recipient e :
  snd (snd (run_pay chain history self amount recipient)) = inl e ->
  fst (snd (run_pay chain history self amount recipient)) = self.
Proof.
  pay_exec chain; intros H; try discriminate H; reflexivity.
Qed.

(** C1.  A call [pay(amount, recipient)] whose amount added to the amount
    spent exceeds the budget raises [X402BudgetExceededError] with the
    amount, the amount spent, the budget and the remaining budget; the
    history of the chain is the one before the call, so no call was made to
    web3, and the handler, its amount spent and its set of transaction
    identifiers included, is the one before the call. *)
Theorem pay_over_budget_is_refused chain history self amount recipient :
  PyFloat.gtb (PyFloat.add (_total_spent self) amount) (_max_budget self) = true ->
  run_pay chain history self amount recipient =
    (history,
     (self,
      inl (X402BudgetExceededError amount (_total_spent self)
             (_max_budget self) (remaining_budget self)))).
Proof.
  intros H. unfold run_pay, pay, bind, get, raise. cbn. rewrite H. reflexivity.
Qed.

(** The theorem at the specification's scenario: 0.80 spent of 1.00, then a
    request for 0.25. *)
Lemma pay_over_budget_is_refused_witness :
  run_pay (Mock.mock_w3 1) [] after_two_payments (PyFloat.micro 250000)
    Mock.TEST_RECIPIENT_ADDRESS =
    ([],
     (after_two_payments,
      inl (X402BudgetExceededError (PyFloat.micro 250000)
             (_total_spent after_two_payments)
             (_max_budget after_two_payments)
             (remaining_budget after_two_payments)))).
Proof.
  apply pay_over_budget_is_refused. vm_compute. reflexivity.
Defined.

(** C2.  In every run of [pay].  If the receipt that the chain returned
    has a status other than 1, [pay] raises [X402PaymentError] with the
    text naming the transaction identifier, and the handler is unchanged.
    If the receipt has status 1, [pay] returns the identifier of the
    transaction, the amount spent of the handler is the one before plus
    the amount, and its set of identifiers is the one before with that
    identifier added.  If [pay] returns a transaction identifier, a receipt
    with status 1 was returned for it and the handler has both updates and
    no other change; if [pay] raises, the handler is unchanged.  So the two
    updates come together, on a receipt of success, or not at all. *)
Theorem pay_updates_ledger_only_on_success chain history self amount recipient :
  let r := run_pay chain history self amount recipient in
  exists evs,
    fst r = (history ++ evs)%list /\
    (forall h t rc,
       In (EvWaitForTransactionReceipt h t (inr rc)) evs ->
       status rc <> 1 ->
       snd r = (self, inl (X402PaymentError (FailedOnChain (hex h))))) /\
    (forall h t rc,
       In (EvWaitForTransactionReceipt h t (inr rc)) evs ->
       status rc = 1 ->
       snd (snd r) = inr (hex h) /\
       _total_spent (fst (snd r)) = PyFloat.add (_total_spent self) amount /\
       _used_tx_hashes (fst (snd r)) = _used_tx_hashes self ∪ {[ hex h ]}) /\
    (forall tx,
       snd (snd r) = inr tx ->
       fst (snd r) =
         set_used_tx_hashes (_used_tx_hashes self ∪ {[ tx ]})
           (set_total_spent (PyFloat.add (_total_spent self) amount) self) /\
       _total_spent (fst (snd r)) = PyFloat.add (_total_spent self) amount /\
       _used_tx_hashes (fst (snd r)) = _used_tx_hashes self ∪ {[ tx ]} /\
       exists h t rc,
         In (EvWaitForTransactionReceipt h t (inr rc)) evs /\
         status rc = 1 /\ hex h = tx) /\
    (forall e, snd (snd r) = inl e -> fst (snd r) = self).
Proof.
  pay_exec chain; eexists; (split; [trace_done |]);
    (split; [ intros h t rc Hin Hst; in_cases Hin
            | split; [ intros h t rc Hin Hst; in_cases Hin
                     | split; [ intros tx Htx; try discriminate Htx
                              | intros ? He; try discriminate He; reflexivity ] ] ]).
  - injection Hin as <- <- <-. congruence.
  - injection Hin as <- <- <-. repeat split; reflexivity.
  - injection Htx as <-. repeat (split; [reflexivity |]).
    eexists _, _, _. split; [ | split; [eassumption | reflexivity] ].
    cbn. do 8 right. left. reflexivity.
  - injection Hin as <- <- <-. reflexivity.
  - injection Hin as <- <- <-. congruence.
Qed.

(** test_successful_payment: on the mocked chain the receipt has status 1,
    so a payment of 0.01 returns the identifier and is recorded. *)
Example receipt_with_status_one :
  let r := run_pay (Mock.mock_w3 1) [] (Mock.payment_handler (PyFloat.of_Z 10) PyFloat.zero)
             (PyFloat.micro 10000) Mock.TEST_RECIPIENT_ADDRESS in
  In (EvWaitForTransactionReceipt {| hex := "0x01" |} 60 (inr {| status := 1 |}))
     (fst r) /\
  snd (snd r) = inr "0x01" /\
  _total_spent (fst (snd r)) = PyFloat.micro 10000 /\
  _used_tx_hashes (fst (snd r)) = {[ "0x01" ]}.
Proof.
  cbv zeta. split; [ vm_compute; do 8 right; left; reflexivity | ].
  split; [ vm_compute; reflexivity | ].
  split; [ vm_compute; reflexivity | ].
  vm_compute. reflexivity.
Qed.

(** C8, as stated, fails: the caller of [pay] does not face a closed set
    of errors.  [Web3.to_checksum_address], a call to the ledger client
    made during [pay] but before its [try], raises on a recipient that is
    no address, and that exception reaches the caller as it is: it is no
    [X402PaymentError] and it has no cause attached. *)
Lemma checksum_exception_reaches_the_caller :
  let chain : ledger := fun X e history =>
    match e in ledgerE X return X with
    | ToChecksumAddress _ => inl ValueError
    | e => Mock.mock_w3 1 _ e history
    end in
  let r := run_pay chain [] scenario_handler (PyFloat.micro 10000)
             "not-an-address" in
  fst r = [EvToChecksumAddress "not-an-address" (inl ValueError)] /\
  snd (snd r) = inl ValueError /\
  is_X402PaymentError ValueError = false /\
  cause_of ValueError = None /\
  ~ (exists e, snd (snd r) = inl e /\ is_X402PaymentError e = true).
Proof.
  cbv zeta. repeat (split; [ vm_compute; reflexivity | ]).
  intros (e & He & Hx). vm_compute in He. injection He as <-. discriminate Hx.
Qed.

(** C8, amended.  In every run of [pay]: whenever one of the calls made to
    the ledger client inside the [try] (nonce query, transaction build with
    its fee queries, signing, submission, receipt wait) raises [exc], [pay]
    raises an [X402PaymentError] and leaves the handler unchanged; when
    [exc] is not itself an [X402PaymentError], what is raised is the
    "Payment failed" error made from [exc], with [exc] as its cause.  The
    set of errors is closed from the [try] on: an exception that [pay]
    raises and that is no [X402PaymentError] is the one of [int()] on the
    amount or the one of [to_checksum_address] on the recipient, the two
    steps made before the [try], and then nothing else was asked of the
    ledger client. *)
Theorem pay_wraps_ledger_exceptions chain history self amount recipient :
  let r := run_pay chain history self amount recipient in
  exists evs,
    fst r = (history ++ evs)%list /\
    (forall ev exc,
       In ev evs -> raised_in_try ev = Some exc ->
       fst (snd r) = self /\
       exists e,
         snd (snd r) = inl e /\
         is_X402PaymentError e = true /\
         (is_X402PaymentError exc = false ->
          e = X402PaymentError (PaymentFailed exc) /\ cause_of e = Some exc)) /\
    (forall e,
       snd (snd r) = inl e ->
       is_X402PaymentError e = false ->
       (to_raw amount = inl e /\ evs = []) \/
       evs = [EvToChecksumAddress recipient (inl e)]) /\
    (forall raw dest e,
       to_raw amount = inr raw ->
       In (EvToChecksumAddress recipient (inr dest)) evs ->
       snd (snd r) = inl e ->
       is_X402PaymentError e = true).
Proof.
  pay_exec chain; eexists; (split; [trace_done |]);
    (split; [ intros ev exc' Hin Hr; in_cases Hin; cbn in Hr; try discriminate Hr;
              injection Hr as <-; (split; [reflexivity |]);
              eexists; (split; [reflexivity |]);
              (split; [ assumption || reflexivity | ]);
              intros Hx; try congruence; split; reflexivity
            | split; [ intros err He Hx; try discriminate He;
                       injection He as <-; try discriminate Hx;
                       try congruence; auto
                     | intros raw' dest err Hraw Hin He; try discriminate He;
                       try discriminate Hraw;
                       injection He as <-; try reflexivity; try assumption;
                       in_cases Hin ] ]).
Qed.

(** A handler made by [__init__] has spent nothing and has the budget it
    was given. *)
Lemma init_starts_at_zero chain history0 history private_key chain_name budget self :
  run (ledger_step chain) (__init__ private_key chain_name budget tt) history0 =
    (history, (tt, inr self)) ->
  _total_spent self = PyFloat.zero /\ _max_budget self = budget /\
  _used_tx_hashes self = ∅.
Proof.
  unfold __init__. destruct (CHAIN_CONFIGS !! chain_name) as [config |];
    unfold bind, call, ret, raise, ledger_step; cbn; [ | discriminate ].
  do 6 (ask chain; [ discriminate | ]).
  intros H. injection H as _ <-. auto.
Qed.

(** Along a sequence of calls of [pay] that all return, the amount spent
    after the call of rank [n] is the sum, by float addition in the order
    of the calls, of the amounts up to that rank; it does not exceed the
    budget, which stays the one of the start. *)
Lemma run_pays_spent chain calls :
  forall history self,
    Forall (fun hr => raised (snd hr) = false) (run_pays chain history self calls) ->
    forall (n : nat) h,
      map fst (run_pays chain history self calls) !! n = Some h ->
      _total_spent h =
        fold_left PyFloat.add (take (S n) (map fst calls)) (_total_spent self) /\
      PyFloat.gtb (_total_spent h) (_max_budget self) = false /\
      _max_budget h = _max_budget self.
Proof.
  induction calls as [| [amount recipient] rest IH]; intros history self Hall n h Hn.
  - destruct n; discriminate Hn.
  - cbn [run_pays] in Hall, Hn.
    pose proof (pay_returns chain history self amount recipient) as Hret.
    destruct (run_pay chain history self amount recipient) as [history' [self' r]].
    cbn [fst snd] in Hret.
    apply Forall_cons in Hall. destruct Hall as [Hr Hall]. cbn in Hr.
    destruct r as [e | tx]; [ discriminate Hr | ].
    destruct (Hret tx eq_refl) as [Hok ->].
    destruct n as [| n].
    + cbn in Hn. injection Hn as <-. cbn. auto.
    + cbn in Hn. apply (IH _ _ Hall) in Hn. cbn in Hn. cbn. exact Hn.
Qed.

Lemma run_pays_length chain calls :
  forall history self,
    length (run_pays chain history self calls) = length calls.
Proof.
  induction calls as [| [amount recipient] rest IH]; intros history self.
  - reflexivity.
  - cbn [run_pays].
    destruct (run_pay chain history self amount recipient) as [history' [self' r]].
    cbn. f_equal. apply IH.
Qed.

(** C3, as stated, fails: the amount spent is not the exact sum of the
    confirmed amounts.  On a handler made by [__init__] with a budget of
    1.0, payments of 0.1 and of 0.2 both return, and the amount spent is
    then the float 0.30000000000000004, which is neither the sum of the
    two numbers that the floats 0.1 and 0.2 stand for nor the number that
    the float 0.3 stands for. *)
Lemma spent_is_not_the_exact_sum :
  let calls := [(PyFloat.int_truediv 1 10, Mock.TEST_RECIPIENT_ADDRESS);
                (PyFloat.int_truediv 2 10, Mock.TEST_RECIPIENT_ADDRESS)] in
  let made := run (ledger_step (Mock.mock_w3 1))
                (__init__ Mock.TEST_PRIVATE_KEY "base" (PyFloat.of_Z 1) tt) [] in
  let results := run_pays (Mock.mock_w3 1) (fst made) scenario_handler calls in
  snd (snd made) = inr scenario_handler /\
  Forall (fun hr => raised (snd hr) = false) results /\
  exists h spent total,
    last (map fst results) = Some h /\
    PyFloat.value (_total_spent h) = Some spent /\
    PyFloat.exact_sum (map fst calls) = Some total /\
    ~ QArith_base.Qeq spent total /\
    _total_spent h <> PyFloat.int_truediv 3 10.
Proof.
  cbv zeta. split; [ vm_compute; reflexivity | ].
  split; [ vm_compute; repeat constructor | ].
  eexists _, _, _.
  split; [ vm_compute; reflexivity | ].
  split; [ vm_compute; reflexivity | ].
  split; [ vm_compute; reflexivity | ].
  split.
  - intros H. apply QArith_base.Qeq_bool_iff in H. vm_compute in H.
    discriminate H.
  - vm_compute. discriminate.
Qed.

(** The rounding is not bounded by the budget check either: with a budget
    of 2^34 that is spent, a payment of 0.000001 passes the check, since
    the float sum of the two is 2^34 again; one raw unit is transferred and
    the amount spent stays where it was, so the exact sum of the confirmed
    amounts is above the budget. *)
Example spent_stays_put_at_a_large_budget :
  let budget := PyFloat.of_Z (2 ^ 34) in
  let calls := [(budget, Mock.TEST_RECIPIENT_ADDRESS);
                (PyFloat.micro 1, Mock.TEST_RECIPIENT_ADDRESS)] in
  let results := run_pays (Mock.mock_w3 1) []
                   (Mock.payment_handler budget PyFloat.zero) calls in
  Forall (fun hr => raised (snd hr) = false) results /\
  map (fun hr => _total_spent (fst hr)) results = [budget; budget] /\
  exists limit total,
    PyFloat.value budget = Some limit /\
    PyFloat.exact_sum (map fst calls) = Some total /\
    QArith_base.Qlt limit total.
Proof.
  cbv zeta. split; [ vm_compute; repeat constructor | ].
  split; [ vm_compute; reflexivity | ].
  eexists _, _.
  split; [ vm_compute; reflexivity | ].
  split; [ vm_compute; reflexivity | ].
  vm_compute. reflexivity.
Qed.

(** C3, amended.  Take a handler made by [__init__] with a budget, and any
    sequence of calls of [pay] on it that all return.  After each call the
    amount spent is the float sum of the amounts of the calls made so far
    (binary64 addition from 0.0, in the order of the calls, each addition
    rounded), and it does not exceed the budget (the test [spent > budget]
    is false); after the last call it is the float sum of all the
    amounts. *)
Theorem spent_is_sum_of_confirmed_amounts
    chain history0 history private_key chain_name budget self calls :
  run (ledger_step chain) (__init__ private_key chain_name budget tt) history0 =
    (history, (tt, inr self)) ->
  Forall (fun hr => raised (snd hr) = false) (run_pays chain history self calls) ->
  let amounts := map fst calls in
  let states := map fst (run_pays chain history self calls) in
  length states = length calls /\
  (forall (n : nat) h,
     states !! n = Some h ->
     _total_spent h = fold_left PyFloat.add (take (S n) amounts) PyFloat.zero /\
     PyFloat.gtb (_total_spent h) budget = false) /\
  (forall h,
     last states = Some h ->
     _total_spent h = fold_left PyFloat.add amounts PyFloat.zero).
Proof.
  intros Hinit Hall amounts states.
  destruct (init_starts_at_zero _ _ _ _ _ _ _ Hinit) as (Hzero & Hbudget & _).
  assert (Hlen : length states = length calls).
  { unfold states. rewrite length_map. apply run_pays_length. }
  assert (Hstep : forall (n : nat) h, states !! n = Some h ->
            _total_spent h = fold_left PyFloat.add (take (S n) amounts) PyFloat.zero /\
            PyFloat.gtb (_total_spent h) budget = false).
  { intros n h Hn.
    destruct (run_pays_spent chain calls history self Hall n h Hn) as (Hs & Hb & _).
    rewrite Hzero in Hs. rewrite Hbudget in Hb. auto. }
  split; [exact Hlen |]. split; [exact Hstep |].
  intros h Hlast. rewrite last_lookup in Hlast.
  destruct (Hstep _ _ Hlast) as [Hs _]. rewrite Hs. f_equal.
  apply take_ge. unfold amounts. rewrite length_map. lia.
Qed.

(** The theorem at the specification's scenario: payments of 0.30 and 0.50
    on a handler made with a budget of 1.00. *)
Lemma spent_is_sum_of_confirmed_amounts_witness :
  let amounts := map fst scenario_calls in
  let states :=
    map fst (run_pays (Mock.mock_w3 1) scenario_history scenario_handler
               scenario_calls) in
  length states = length scenario_calls /\
  (forall (n : nat) h,
     states !! n = Some h ->
     _total_spent h = fold_left PyFloat.add (take (S n) amounts) PyFloat.zero /\
     PyFloat.gtb (_total_spent h) (PyFloat.of_Z 1) = false) /\
  (forall h,
     last states = Some h ->
     _total_spent h = fold_left PyFloat.add amounts PyFloat.zero).
Proof.
  apply (spent_is_sum_of_confirmed_amounts (Mock.mock_w3 1) [] scenario_history
           Mock.TEST_PRIVATE_KEY "base" (PyFloat.of_Z 1) scenario_handler
           scenario_calls).
  - vm_compute. reflexivity.
  - vm_compute. repeat constructor.
Defined.

(** C5.  The conversion of [pay] is [int(amount * 10**6)], a truncation,
    where the specification asks for [round(amount * 10**6)].  On 0.05 both
    give 50000 and [get_balance]'s division gives 0.05 back.  On 1.001 the
    float product lies just below 1001000: the specification's conversion
    gives 1001000, which divides back to 1.001, but [pay] transfers 1000999
    raw units, which divide back to another float than 1.001. *)
Theorem to_raw_truncates_where_spec_rounds :
  to_raw (PyFloat.micro 50000) = inr 50000 /\
  spec_to_raw (PyFloat.micro 50000) = inr 50000 /\
  from_raw 50000 = PyFloat.micro 50000 /\
  spec_to_raw (PyFloat.micro 1001000) = inr 1001000 /\
  from_raw 1001000 = PyFloat.micro 1001000 /\
  to_raw (PyFloat.micro 1001000) = inr 1000999 /\
  from_raw 1000999 <> PyFloat.micro 1001000 /\
  In (EvTransfer (_usdc scenario_handler) Mock.TEST_RECIPIENT_ADDRESS 1000999
        (inr {| fn_contract := _usdc scenario_handler;
                fn_to := Mock.TEST_RECIPIENT_ADDRESS;
                fn_value := 1000999 |}))
     (fst (run_pay (Mock.mock_w3 1) []
             (Mock.payment_handler (PyFloat.of_Z 10) PyFloat.zero)
             (PyFloat.micro 1001000) Mock.TEST_RECIPIENT_ADDRESS)).
Proof.
  repeat split; try (vm_compute; reflexivity).
  - vm_compute. discriminate.
  - vm_compute. do 2 right. left. reflexivity.
Qed.

(** C9.  In every state of the handler, whatever the amount spent and the
    budget are, the remaining budget is [max(0.0, budget - spent)] and is
    not negative: it is 0.0, a positive number or plus infinity, never a
    negative number, minus zero or NaN.  With 15.0 spent out of a budget of
    10.0 it is 0.0. *)
Theorem remaining_budget_is_never_negative self :
  remaining_budget self =
    PyFloat.max PyFloat.zero (PyFloat.sub (_max_budget self) (_total_spent self)) /\
  PyFloat.nonneg (remaining_budget self) = true /\
  PyFloat.ltb (remaining_budget self) PyFloat.zero = false /\
  remaining_budget (Mock.payment_handler (PyFloat.of_Z 10) (PyFloat.of_Z 15)) =
    PyFloat.zero.
Proof.
  split; [reflexivity |].
  unfold remaining_budget.
  generalize (PyFloat.sub (_max_budget self) (_total_spent self)); intros x.
  repeat split; try (vm_compute; reflexivity);
    destruct x as [[|] | [|] | | [|] m e]; reflexivity.
Qed.

(** * Properties of the request executor *)

(** Symbolic execution of [_request]. *)
Ltac red_request :=
  cbn [run io_bind fst snd client_step http_log chain_log app negb
       set_payment _payment _base_url _timeout dict_get sliceable].

Ltac request_unfold :=
  unfold run_request, _request, bind, get, call, lift, raise, ret,
    payment_pay, payment_chain;
  red_request.

(** One more step: the scrutinee that stops the run is rewritten with a
    hypothesis if there is one, and split otherwise. *)
Ltac request_step :=
  match goal with
  | H : ?t = _ |- context [match ?t with _ => _ end] => rewrite H
  | |- context [default _ (∅ !! _)] => rewrite lookup_empty; cbn [default from_option id]
  | H : ?m !! ?k = _ |- context [default _ (?m !! ?k)] =>
      rewrite H; cbn [default from_option id]
  | |- context [default _ (?m !! ?k)] =>
      destruct (m !! k) eqn:?; cbn [default from_option id]
  | H : truthy ?x = _ |- context [truthy ?x] => rewrite H
  | |- context [truthy ?x] =>
      first [ is_var x; destruct (truthy x) eqn:?
            | progress cbn [truthy]
            | destruct (truthy x) eqn:? ]
  | |- context [run_pay ?c ?hi ?h ?a ?r] =>
      let history' := fresh "history'" in
      let h' := fresh "h'" in
      let e := fresh "e" in
      let tx := fresh "tx" in
      destruct (run_pay c hi h a r) as [history' [h' [e | tx]]] eqn:?
  | |- context [match ?t with _ => _ end] =>
      lazymatch t with
      | context [run] => fail
      | _ => destruct t eqn:?
      end
  end;
  red_request.

Ltac request_exec := request_unfold; repeat request_step.

(** C4.  In every run of [_request], whatever the server and the chain
    answer: at most two requests are sent (the original one and at most one
    retry) and [pay] is called at most once; a second request is sent only
    after a call of [pay] that returned and it is the original request with
    the two payment headers; when the answer to that retried request has
    status 402, the call raises [X402APIError] "API error 402" and nothing
    more is sent or paid. *)
Theorem request_retries_at_most_once
    str_to_float srv chain history self method path params json_body :
  let r := run_request str_to_float srv chain history self method path params
             json_body in
  let log := http_log (fst r) in
  (length (requests log) <= 2)%nat /\
  (length (payments log) <= 1)%nat /\
  (forall rq answer,
     requests log !! 1%nat = Some (rq, answer) ->
     exists amount recipient tx chain_name,
       payments log = [(amount, recipient, inr tx)] /\
       rq = retried_request self method path params json_body tx chain_name) /\
  (forall rq resp,
     requests log !! 1%nat = Some (rq, inr resp) ->
     status_code resp = 402 ->
     snd (snd r) =
       inl (X402APIError (ApiStatus 402 (substring 0 500 (text resp))))).
Proof.
  request_exec.
  all: cbn; (split; [lia |]); (split; [lia |]);
    (split; [ intros rq answer Hrq; try discriminate Hrq
            | intros rq resp' Hrq Hst; try discriminate Hrq ]).
  all: try (injection Hrq as <- <-; eexists _, _, _, _; split; reflexivity).
  - injection Hrq as <- <-. rewrite Hst. reflexivity.
  - injection Hrq as <- <-.
    match goal with H : (400 <=? _) = false |- _ => apply Z.leb_gt in H end.
    lia.
Qed.

(** C6, as stated, fails: a 402 response whose amount string does not
    parse and which has no recipient makes [_request] raise the
    missing-recipient [X402APIError], not the parse error. *)
Lemma unparseable_amount_without_recipient :
  Mock.details_amount_only "invalid" !! "amount" = Some (JStr "invalid") /\
  Mock.float_of_decimal "invalid" = None /\
  snd (snd (Mock.get_paid (Mock.details_amount_only "invalid"))) =
    inl (X402APIError
           (MissingRecipient
              (Mock.payment_required_body (Mock.details_amount_only "invalid")))) /\
  snd (snd (Mock.get_paid (Mock.details_amount_only "invalid"))) <> inl ValueError.
Proof.
  repeat split; try (vm_compute; reflexivity).
  vm_compute. discriminate.
Qed.

(** C6, amended.  For every 402 response whose payment details hold an
    amount string that the builtin [float] does not parse: [pay] is not
    called and the chain is not contacted; and when the client has a
    payment handler and the details hold a truthy recipient, [_request]
    raises the [ValueError] of the conversion, after the one request. *)
Theorem unparseable_amount_raises_before_pay
    str_to_float srv chain history self method path params json_body
    resp body details s :
  srv [] (original_request self method path params json_body) = inr resp ->
  status_code resp = 402 ->
  resp_json resp = inr (JObj body) ->
  body !! "payment_details" = Some (JObj details) ->
  details !! "amount" = Some (JStr s) ->
  str_to_float s = None ->
  let r := run_request str_to_float srv chain history self method path params
             json_body in
  payments (http_log (fst r)) = [] /\
  chain_log (fst r) = history /\
  (forall h recipient,
     _payment self = Some h ->
     details !! "recipient" = Some recipient ->
     truthy recipient = true ->
     snd (snd r) = inl ValueError /\
     fst (snd r) = self /\
     http_log (fst r) =
       [EvRequest (original_request self method path params json_body)
          (inr resp)]).
Proof.
  intros Hsrv Hst Hjson Hdetails Hamount Hparse.
  apply Z.eqb_eq in Hst.
  assert (Hf : float_of str_to_float (JStr s) = inl ValueError)
    by (cbn; rewrite Hparse; reflexivity).
  request_exec.
  all: cbn; (split; [reflexivity |]); (split; [reflexivity |]);
    intros h' recipient' Hp Hr Ht; try discriminate Hp; try discriminate Hr.
  all: try (injection Hr as <-); try congruence; auto.
Qed.

(** The theorem at the response of test_402_invalid_amount. *)
Lemma unparseable_amount_raises_before_pay_witness :
  let r := Mock.get_paid (Mock.details_with "invalid") in
  payments (http_log (fst r)) = [] /\
  chain_log (fst r) = [] /\
  (forall h recipient,
     _payment Mock.x402_client_with_payment = Some h ->
     Mock.details_with "invalid" !! "recipient" = Some recipient ->
     truthy recipient = true ->
     snd (snd r) = inl ValueError /\
     fst (snd r) = Mock.x402_client_with_payment /\
     http_log (fst r) =
       [EvRequest
          (original_request Mock.x402_client_with_payment "GET" "/api/paid"
             None None)
          (inr (Mock.payment_required (Mock.details_with "invalid")))]).
Proof.
  apply (unparseable_amount_raises_before_pay Mock.float_of_decimal
           (Mock.mock_session
              (Mock.payment_required (Mock.details_with "invalid"))
              (Mock.payment_required (Mock.details_with "invalid")))
           (Mock.mock_w3 1) [] Mock.x402_client_with_payment
           "GET" "/api/paid" None None
           (Mock.payment_required (Mock.details_with "invalid"))
           (Mock.payment_required_fields (Mock.details_with "invalid"))
           (Mock.details_with "invalid") "invalid").
  - reflexivity.
  - reflexivity.
  - reflexivity.
  - vm_compute. reflexivity.
  - vm_compute. reflexivity.
  - vm_compute. reflexivity.
Defined.

(** C7, as stated, fails: a 402 response whose payment details are
    malformed by an amount that does not parse, with a recipient present,
    makes [_request] raise the [ValueError] of the conversion, which is
    not an [X402APIError]; [pay] is not called. *)
Lemma malformed_amount_is_not_an_api_error :
  Mock.details_with "invalid" !! "amount" = Some (JStr "invalid") /\
  Mock.float_of_decimal "invalid" = None /\
  snd (snd (Mock.get_paid (Mock.details_with "invalid"))) = inl ValueError /\
  is_X402APIError ValueError = false /\
  payments (http_log (fst (Mock.get_paid (Mock.details_with "invalid")))) = [].
Proof.
  repeat split; vm_compute; reflexivity.
Qed.

(** C7, amended.  For every 402 response whose body is a JSON object
    that gives no recipient (no payment details, or details without a
    recipient or with a falsy one), [_request] raises [X402APIError]
    without calling [pay] or contacting the chain, after the one request;
    with a payment handler configured it is the missing-recipient error
    carrying the body. *)
Theorem missing_recipient_is_api_error_without_pay
    str_to_float srv chain history self method path params json_body
    resp body :
  srv [] (original_request self method path params json_body) = inr resp ->
  status_code resp = 402 ->
  resp_json resp = inr (JObj body) ->
  lacks_recipient body ->
  let r := run_request str_to_float srv chain history self method path params
             json_body in
  (exists m, snd (snd r) = inl (X402APIError m)) /\
  (forall h, _payment self = Some h ->
             snd (snd r) = inl (X402APIError (MissingRecipient (JObj body)))) /\
  payments (http_log (fst r)) = [] /\
  chain_log (fst r) = history /\
  http_log (fst r) =
    [EvRequest (original_request self method path params json_body) (inr resp)] /\
  fst (snd r) = self.
Proof.
  intros Hsrv Hst Hjson Hlacks.
  apply Z.eqb_eq in Hst. unfold lacks_recipient in Hlacks.
  destruct (body !! "payment_details") as [[| | | | | | details] |] eqn:Hd;
    try contradiction.
  - destruct (details !! "recipient") as [v |] eqn:Hv; cbv beta iota in Hlacks;
      request_exec; cbn; repeat split; eauto; intros ? [=].
  - request_exec; cbn; repeat split; eauto; intros ? [=].
Qed.

(** The theorem at the response of tests/conftest.py that has an amount
    and no recipient. *)
Lemma missing_recipient_is_api_error_without_pay_witness :
  let details := Mock.details_amount_only "0.001" in
  let r := Mock.get_paid details in
  (exists m, snd (snd r) = inl (X402APIError m)) /\
  (forall h, _payment Mock.x402_client_with_payment = Some h ->
             snd (snd r) =
               inl (X402APIError
                      (MissingRecipient (Mock.payment_required_body details)))) /\
  payments (http_log (fst r)) = [] /\
  chain_log (fst r) = [] /\
  http_log (fst r) =
    [EvRequest
       (original_request Mock.x402_client_with_payment "GET" "/api/paid"
          None None)
       (inr (Mock.payment_required details))] /\
  fst (snd r) = Mock.x402_client_with_payment.
Proof.
  apply (missing_recipient_is_api_error_without_pay Mock.float_of_decimal
           (Mock.mock_session
              (Mock.payment_required (Mock.details_amount_only "0.001"))
              (Mock.payment_required (Mock.details_amount_only "0.001")))
           (Mock.mock_w3 1) [] Mock.x402_client_with_payment
           "GET" "/api/paid" None None
           (Mock.payment_required (Mock.details_amount_only "0.001"))
           (Mock.payment_required_fields (Mock.details_amount_only "0.001"))).
  - reflexivity.
  - reflexivity.
  - reflexivity.
  - vm_compute. exact I.
Defined.




(** * The scenarios of the specification and of the tests, run *)

(** Budget 1.00, payments of 0.30 and 0.50 confirmed, then a request for
    0.25: the third call raises [X402BudgetExceededError]; the amount spent
    stays the float sum of 0.30 and 0.50. *)
Example scenario_third_payment_is_refused :
  map (fun hr => (_total_spent (fst hr), raised (snd hr)))
    (run_pays (Mock.mock_w3 1) scenario_history scenario_handler
       (scenario_calls ++ [(PyFloat.micro 250000, Mock.TEST_RECIPIENT_ADDRESS)])%list) =
  [(PyFloat.micro 300000, false);
   (PyFloat.add (PyFloat.micro 300000) (PyFloat.micro 500000), false);
   (PyFloat.add (PyFloat.micro 300000) (PyFloat.micro 500000), true)].
Proof.
  vm_compute. reflexivity.
Qed.

(** test_payment_transaction_failed_status_zero: a receipt with status 0
    raises the error naming the transaction and spends nothing. *)
Example receipt_with_status_zero :
  snd (run_pay (Mock.mock_w3 0) [] scenario_handler (PyFloat.micro 10000)
         Mock.TEST_RECIPIENT_ADDRESS) =
  (scenario_handler, inl (X402PaymentError (FailedOnChain "0x01"))).
Proof.
  vm_compute. reflexivity.
Qed.

(** test_payment_transaction_exception: an exception of the nonce query
    comes out as "Payment failed", with the exception as its cause. *)
Example rpc_connection_failed :
  snd (run_pay Mock.mock_w3_rpc_down [] scenario_handler (PyFloat.micro 10000)
         Mock.TEST_RECIPIENT_ADDRESS) =
  (scenario_handler,
   inl (X402PaymentError
          (PaymentFailed (Foreign "Exception" "RPC connection failed")))).
Proof.
  vm_compute. reflexivity.
Qed.

(** A server that answers 402 to every request: one payment, two requests,
    and the second 402 comes out as [X402APIError]. *)
Example server_always_asks_for_payment :
  let r := Mock.get_paid (Mock.details_with "0.001") in
  length (requests (http_log (fst r))) = 2%nat /\
  payments (http_log (fst r)) =
    [(PyFloat.micro 1000, Mock.TEST_RECIPIENT_ADDRESS, inr "0x01")] /\
  snd (snd r) = inl (X402APIError (ApiStatus 402 "Payment required")).
Proof.
  vm_compute. repeat split; reflexivity.
Qed.

(** test_402_payment_required_with_handler: the 402 is paid and the
    retried request, with the two payment headers, is answered. *)
Example payment_then_retry :
  let r :=
    run_request Mock.float_of_decimal
      (Mock.mock_session Mock.mock_response_402 Mock.mock_response_200)
      (Mock.mock_w3 1) [] Mock.x402_client_with_payment "GET" "/api/paid"
      None None in
  map fst (requests (http_log (fst r))) =
    [original_request Mock.x402_client_with_payment "GET" "/api/paid" None None;
     retried_request Mock.x402_client_with_payment "GET" "/api/paid" None None
       "0x01" "base"] /\
  snd (snd r) = inr (JObj ∅).
Proof.
  vm_compute. repeat split; reflexivity.
Qed.

(** An address that web3 rejects: [Web3.to_checksum_address] is called
    before the [try], so its exception reaches the caller as it is, and
    nothing else is asked of the chain. *)
Example invalid_recipient_is_raised_as_is :
  let chain : ledger := fun X e history =>
    match e in ledgerE X return X with
    | ToChecksumAddress _ => inl ValueError
    | e => Mock.mock_w3 1 _ e history
    end in
  run_pay chain [] scenario_handler (PyFloat.micro 10000) "not-an-address" =
  ([EvToChecksumAddress "not-an-address" (inl ValueError)],
   (scenario_handler, inl ValueError)).
Proof.
  vm_compute. reflexivity.
Qed.

(** * The float model against the machine's binary64 *)

Module MachineFloats.
Import PrimFloat FloatOps.

Set Warnings "-inexact-float".

(** The literals 0.05 and 1.001 are the floats that [PyFloat.micro] builds,
    and the machine's product 1.001 * 1000000.0 is the one of the model:
    the float just below 1001000. *)
Example literals_agree :
  Prim2SF 0.05%float = PyFloat.micro 50000 /\
  Prim2SF 1.001%float = PyFloat.micro 1001000 /\
  Prim2SF (1.001 * 1000000)%float =
    PyFloat.mul (PyFloat.micro 1001000) (PyFloat.of_Z (10 ^ USDC_DECIMALS)) /\
  (1.001 * 1000000 <? 1001000)%float = true.
Proof.
  vm_compute. repeat split; reflexivity.
Qed.

End MachineFloats.

(** * Further properties of the payment handler *)

(** X1.  Whatever the chain answers and whether [pay] returns or raises,
    the chain key, the chain configuration, the budget, the account and
    the token contract of the handler are the ones before the call. *)
Theorem pay_keeps_configuration chain history self amount recipient :
  let self' := fst (snd (run_pay chain history self amount recipient)) in
  _chain_key self' = _chain_key self /\
  _config self' = _config self /\
  _max_budget self' = _max_budget self /\
  _account self' = _account self /\
  _usdc self' = _usdc self.
Proof.
  cbv zeta.
  destruct (snd (snd (run_pay chain history self amount recipient)))
    as [e | tx] eqn:Hr.
  - rewrite (pay_raises _ _ _ _ _ _ Hr). auto.
  - destruct (pay_returns _ _ _ _ _ _ Hr) as [_ ->]. cbn. auto.
Qed.

(** X2.  The set of confirmed transaction identifiers never shrinks: after
    any call of [pay] it contains what it contained; after a call that
    returns [tx] it is the old set with [tx] added; after a call that
    raises it is the old set. *)
Theorem pay_confirmed_ids_grow chain history self amount recipient :
  let r := run_pay chain history self amount recipient in
  _used_tx_hashes self ⊆ _used_tx_hashes (fst (snd r)) /\
  (forall tx, snd (snd r) = inr tx ->
     tx ∈ _used_tx_hashes (fst (snd r)) /\
     _used_tx_hashes (fst (snd r)) = _used_tx_hashes self ∪ {[ tx ]}) /\
  (forall e, snd (snd r) = inl e ->
     _used_tx_hashes (fst (snd r)) = _used_tx_hashes self).
Proof.
  cbv zeta.
  destruct (snd (snd (run_pay chain history self amount recipient)))
    as [e | tx] eqn:Hr.
  - rewrite (pay_raises _ _ _ _ _ _ Hr).
    split; [ set_solver | split; [ discriminate | reflexivity ] ].
  - destruct (pay_returns _ _ _ _ _ _ Hr) as [_ ->]. cbn.
    split; [ set_solver | split; [ | discriminate ] ].
    intros ? [= <-]. split; [ set_solver | reflexivity ].
Qed.

(** X3.  A call of [pay] submits at most one transaction.  What it submits
    is the raw transaction that [sign_transaction] returned for the
    handler's key; the receipt is waited for on the hash that the
    submission returned, with a timeout of 60; the identifier that [pay]
    returns is the hex form of that hash. *)
Theorem pay_submits_what_it_signed_once chain history self amount recipient :
  let r := run_pay chain history self amount recipient in
  exists evs,
    fst r = (history ++ evs)%list /\
    (length (submissions evs) <= 1)%nat /\
    (forall raw answer,
       In (raw, answer) (submissions evs) ->
       exists tx signed,
         In (EvSignTransaction tx (key (_account self)) (inr signed)) evs /\
         raw = raw_transaction signed) /\
    (forall h t answer,
       In (EvWaitForTransactionReceipt h t answer) evs ->
       t = 60 /\ exists raw, In (raw, inr h) (submissions evs)) /\
    (forall tx,
       snd (snd r) = inr tx ->
       exists raw h, submissions evs = [(raw, inr h)] /\ tx = hex h).
Proof.
  pay_exec chain; eexists; (split; [trace_done |]); cbn;
    (split; [lia |]);
    (split; [ intros sent answer Hin; in_cases Hin
            | split; [ intros h t answer Hin; in_cases Hin
                     | intros tx Htx; try discriminate Htx ] ]).
  all: try (injection Hin as <- <-; eexists _, _; split; [ | reflexivity ];
            repeat (first [ left; reflexivity | right ])).
  all: try (injection Hin as <- <- <-; split; [reflexivity |];
            eexists; left; reflexivity).
  all: injection Htx as <-; eexists _, _; split; reflexivity.
Qed.

Ltac pick_event := repeat (first [ left; reflexivity | right ]).

(** X4.  In every run of [pay], the transfer asked of the token contract
    is the one of the call: it is asked of the handler's contract, for the
    address that [to_checksum_address] returned for the recipient and for
    exactly [int(amount * 10**6)] raw units; and the transaction is built
    from the handler's address with the nonce that was returned, the chain
    id of the configuration, a gas limit of 100000, twice the gas price
    that was returned as maximal fee and the priority fee that was
    returned. *)
Theorem pay_builds_the_transfer_it_was_asked chain history self amount recipient :
  let r := run_pay chain history self amount recipient in
  exists evs,
    fst r = (history ++ evs)%list /\
    (forall c dest value answer,
       In (EvTransfer c dest value answer) evs ->
       c = _usdc self /\
       to_raw amount = inr value /\
       In (EvToChecksumAddress recipient (inr dest)) evs) /\
    (forall f p answer,
       In (EvBuildTransaction f p answer) evs ->
       tx_from p = address (_account self) /\
       tx_chainId p = chain_id (_config self) /\
       tx_gas p = 100000 /\
       In (EvGetTransactionCount (address (_account self)) (inr (tx_nonce p))) evs /\
       (exists gas_price,
          In (EvGasPrice (inr gas_price)) evs /\
          tx_maxFeePerGas p = gas_price * 2) /\
       In (EvMaxPriorityFee (inr (tx_maxPriorityFeePerGas p))) evs /\
       exists c dest value,
         In (EvTransfer c dest value (inr f)) evs).
Proof.
  pay_exec chain; eexists; (split; [trace_done |]); cbn;
    (split; [ intros c dest value answer Hin; in_cases Hin
            | intros f p answer Hin; in_cases Hin ]).
  all: try (injection Hin as <- <- <- <-;
            split; [reflexivity |]; split; [assumption |]; pick_event).
  all: injection Hin as <- <- <-; cbn;
    repeat (split; [ first [ reflexivity | pick_event ] |]);
    first [ eexists; split; [ pick_event | reflexivity ]
          | idtac ].
  all: try pick_event.
  all: try (eexists _, _, _; pick_event).
Qed.

(** No float is greater than itself. *)
Lemma gtb_irrefl (x : float) : PyFloat.gtb x x = false.
Proof.
  unfold PyFloat.gtb, PyFloat.ltb, SFltb.
  destruct x as [[|] | [|] | | s m e]; cbn; try reflexivity.
  destruct s; rewrite Z.compare_refl, Pos.compare_cont_refl; reflexivity.
Qed.

(** Nothing is greater or smaller than NaN, and nothing is smaller than
    minus infinity. *)
Lemma gtb_nan_l (x : float) : PyFloat.gtb S754_nan x = false.
Proof. destruct x as [s | s | | s m e]; reflexivity. Qed.

Lemma gtb_neg_infinity_l (x : float) :
  PyFloat.gtb (S754_infinity true) x = false.
Proof. destruct x as [[|] | [|] | | [|] m e]; reflexivity. Qed.

(** X5.  An amount that is NaN or minus infinity is not stopped by the
    budget check, whatever the handler has spent and whatever its budget:
    [pay] raises the exception of [int()] on it ([ValueError] for NaN,
    [OverflowError] for minus infinity), not [X402BudgetExceededError];
    the chain is not contacted and the handler is unchanged. *)
Theorem pay_with_non_finite_amount chain history self recipient :
  run_pay chain history self S754_nan recipient =
    (history, (self, inl ValueError)) /\
  run_pay chain history self (S754_infinity true) recipient =
    (history, (self, inl OverflowError)).
Proof.
  unfold run_pay, pay, bind, get, raise, lift. cbn [io_bind fst snd].
  split.
  - replace (PyFloat.add (_total_spent self) S754_nan) with S754_nan
      by (destruct (_total_spent self) as [[|] | [|] | | [|] m e]; reflexivity).
    rewrite gtb_nan_l. reflexivity.
  - assert (H : PyFloat.add (_total_spent self) (S754_infinity true) = S754_nan \/
                PyFloat.add (_total_spent self) (S754_infinity true) = S754_infinity true)
      by (destruct (_total_spent self) as [[|] | [|] | | [|] m e]; cbn; auto).
    destruct H as [-> | ->]; [ rewrite gtb_nan_l | rewrite gtb_neg_infinity_l ];
      reflexivity.
Qed.

(** X6.  The budget check is strict: a call whose amount brings the amount
    spent exactly to the budget is not refused.  When the amount converts
    to raw units, [pay] goes on to the chain, and its first call there is
    [to_checksum_address] on the recipient. *)
Theorem pay_up_to_the_budget_goes_on
    chain history self amount recipient raw :
  PyFloat.add (_total_spent self) amount = _max_budget self ->
  to_raw amount = inr raw ->
  exists answer rest,
    fst (run_pay chain history self amount recipient) =
      (history ++ EvToChecksumAddress recipient answer :: rest)%list.
Proof.
  intros Hsum Hraw.
  assert (Hgt : PyFloat.gtb (PyFloat.add (_total_spent self) amount)
                  (_max_budget self) = false)
    by (rewrite Hsum; apply gtb_irrefl).
  pay_exec chain; try congruence;
    eexists _, _; rewrite <- ?app_assoc; reflexivity.
Qed.

(** The theorem at test_payment_exactly_at_budget_limit: a budget of 0.05,
    nothing spent, a payment of 0.05. *)
Lemma pay_up_to_the_budget_goes_on_witness :
  exists answer rest,
    fst (run_pay (Mock.mock_w3 1) []
           (Mock.payment_handler (PyFloat.micro 50000) PyFloat.zero)
           (PyFloat.micro 50000) Mock.TEST_RECIPIENT_ADDRESS) =
      ([] ++ EvToChecksumAddress Mock.TEST_RECIPIENT_ADDRESS answer :: rest)%list.
Proof.
  apply (pay_up_to_the_budget_goes_on (Mock.mock_w3 1) []
           (Mock.payment_handler (PyFloat.micro 50000) PyFloat.zero)
           (PyFloat.micro 50000) Mock.TEST_RECIPIENT_ADDRESS 50000).
  - vm_compute. reflexivity.
  - vm_compute. reflexivity.
Defined.

(** The product of an amount by [10**6] is NaN, or has the sign of the
    amount. *)
Lemma mul_million_sign (amount : float) :
  exists s,
    PyFloat.nonneg amount = negb s /\
    match PyFloat.mul amount (PyFloat.of_Z (10 ^ USDC_DECIMALS)) with
    | S754_zero s' | S754_infinity s' | S754_finite s' _ _ => s' = s
    | S754_nan => amount = S754_nan \/ exists m e, amount = S754_finite s m e
    end.
Proof.
  change (PyFloat.of_Z (10 ^ USDC_DECIMALS))
    with (S754_finite false 8589934592000000 (-33)).
  destruct amount as [s | s | | s m e].
  - exists s. cbn. rewrite xorb_false_r. auto.
  - exists s. cbn. rewrite xorb_false_r. auto.
  - exists true. cbn. auto.
  - exists s. split; [reflexivity |].
    unfold PyFloat.mul, SFmul, binary_round_aux. rewrite xorb_false_r.
    destruct (shr_fexp _ _ _ _ _) as [mrs' e'].
    destruct (shr_fexp _ _ _ _ _) as [mrs'' e''].
    destruct (shr_m mrs''); [ reflexivity | | right; eauto ].
    destruct (e'' <=? _)%Z; reflexivity.
Qed.

(** X7.  The raw amount has the sign of the amount: when
    [int(amount * 10**6)] is defined, it is not negative for an amount
    that is not negative and not positive for an amount with the sign bit
    set, so [pay] asks for a negative transfer only on a negative amount. *)
Theorem to_raw_has_the_sign_of_the_amount (amount : float) (raw : Z) :
  to_raw amount = inr raw ->
  (PyFloat.nonneg amount = true -> 0 <= raw) /\
  (PyFloat.nonneg amount = false -> raw <= 0).
Proof.
  unfold to_raw. intros Hraw.
  destruct (mul_million_sign amount) as [s [Hs Hx]].
  destruct (PyFloat.mul amount (PyFloat.of_Z (10 ^ USDC_DECIMALS)))
    as [s' | s' | | s' m e]; cbn in Hraw; try discriminate Hraw;
    try contradiction.
  - injection Hraw as <-. split; intros; lia.
  - subst s'. injection Hraw as <-.
    assert (0 <= match e with
                 | Zneg p => Z.shiftr (Zpos m) (Zpos p)
                 | _ => Z.shiftl (Zpos m) e
                 end).
    { destruct e; [ apply Z.shiftl_nonneg | apply Z.shiftl_nonneg
                  | apply Z.shiftr_nonneg ]; lia. }
    rewrite Hs. destruct s; cbn [cond_Zopp negb]; split; intros;
      (lia || discriminate).
Qed.

(** Witness of X7 at 0.05. *)
Lemma to_raw_has_the_sign_of_the_amount_witness :
  (PyFloat.nonneg (PyFloat.micro 50000) = true -> 0 <= 50000) /\
  (PyFloat.nonneg (PyFloat.micro 50000) = false -> 50000 <= 0).
Proof.
  apply (to_raw_has_the_sign_of_the_amount (PyFloat.micro 50000) 50000).
  vm_compute. reflexivity.
Defined.

(** X8.  [X402PaymentHandler.__init__] refuses every chain name other than
    "base", "base-sepolia" and "skale" with [ValueError], before any call
    to web3 or eth_account, whatever the key and the budget. *)
Theorem init_rejects_unknown_chain
    chain history private_key chain_name budget :
  chain_name <> "base" ->
  chain_name <> "base-sepolia" ->
  chain_name <> "skale" ->
  run (ledger_step chain) (__init__ private_key chain_name budget tt) history =
    (history, (tt, inl ValueError)).
Proof.
  intros H1 H2 H3. unfold __init__, CHAIN_CONFIGS. cbn [list_to_map foldr uncurry fst snd].
  rewrite !lookup_insert_ne by congruence. rewrite lookup_empty.
  reflexivity.
Qed.

(** The theorem at test_init_invalid_chain. *)
Lemma init_rejects_unknown_chain_witness :
  run (ledger_step (Mock.mock_w3 1))
    (__init__ Mock.TEST_PRIVATE_KEY "invalid-chain" (PyFloat.of_Z 1) tt) [] =
    ([], (tt, inl ValueError)).
Proof.
  apply init_rejects_unknown_chain; discriminate.
Defined.

(** X9.  A handler that [__init__] returns is on a chain of
    [CHAIN_CONFIGS], with the configuration of that chain, the budget it
    was given, nothing spent and no confirmed identifier.  The calls made
    are, in this order: [Web3.HTTPProvider] on the RPC URL of the
    configuration, [Web3] on the provider returned, the injection of
    [ExtraDataToPOAMiddleware] at layer 0, [from_key], [to_checksum_address]
    on the token contract of the configuration, and [contract] on the
    address returned.  [from_key] is given the private key as it is when it
    starts with 0x, and with 0x put before it otherwise; the account of the
    handler is what [from_key] returned and its contract is what [contract]
    returned. *)
Theorem init_makes_a_fresh_handler
    chain history history' private_key chain_name budget self :
  run (ledger_step chain) (__init__ private_key chain_name budget tt) history =
    (history', (tt, inr self)) ->
  CHAIN_CONFIGS !! chain_name = Some (_config self) /\
  _chain_key self = chain_name /\
  _max_budget self = budget /\
  _total_spent self = PyFloat.zero /\
  _used_tx_hashes self = ∅ /\
  exists k p a,
    (String.prefix "0x" private_key = true -> k = private_key) /\
    (String.prefix "0x" private_key = false -> k = "0x" ++ private_key) /\
    history' =
      (history ++
       [EvHTTPProvider (rpc_url (_config self)) (inr p);
        EvWeb3 p (inr tt);
        EvMiddlewareInject "ExtraDataToPOAMiddleware" 0 (inr tt);
        EvFromKey k (inr (_account self));
        EvToChecksumAddress (usdc_contract (_config self)) (inr a);
        EvContract a (inr (_usdc self))])%list.
Proof.
  unfold __init__. destruct (CHAIN_CONFIGS !! chain_name) as [config |];
    [ | discriminate ].
  destruct (String.prefix "0x" private_key);
    unfold bind, call, ret, raise, ledger_step; cbn;
    do 6 (ask chain; [ discriminate | ]);
    intros H; injection H as <- <-; cbn;
    repeat (split; [reflexivity |]);
    repeat match goal with u : unit |- _ => destruct u end;
    eexists _, _, _;
    (split; [ intros Hp | split; [ intros Hp | ] ]);
    try discriminate Hp; try reflexivity;
    rewrite <- !app_assoc; reflexivity.
Qed.

(** The theorem at test_init_private_key_normalization: a key of 64 times
    the letter a, with no prefix, on "base". *)
Lemma init_makes_a_fresh_handler_witness :
  let bare := "aaaaaaaaaaaaaaaaaaaaaaaaaaaaaaaaaaaaaaaaaaaaaaaaaaaaaaaaaaaaaaaa" in
  let r := run (ledger_step (Mock.mock_w3 1))
             (__init__ bare "base" (PyFloat.of_Z 1) tt) [] in
  snd (snd r) = inr scenario_handler /\
  CHAIN_CONFIGS !! "base" = Some (_config scenario_handler) /\
  _chain_key scenario_handler = "base" /\
  _max_budget scenario_handler = PyFloat.of_Z 1 /\
  _total_spent scenario_handler = PyFloat.zero /\
  _used_tx_hashes scenario_handler = ∅ /\
  exists k p a,
    (String.prefix "0x" bare = true -> k = bare) /\
    (String.prefix "0x" bare = false -> k = "0x" ++ bare) /\
    fst r =
      ([] ++
       [EvHTTPProvider (rpc_url (_config scenario_handler)) (inr p);
        EvWeb3 p (inr tt);
        EvMiddlewareInject "ExtraDataToPOAMiddleware" 0 (inr tt);
        EvFromKey k (inr (_account scenario_handler));
        EvToChecksumAddress (usdc_contract (_config scenario_handler)) (inr a);
        EvContract a (inr (_usdc scenario_handler))])%list.
Proof.
  cbv zeta. split; [ vm_compute; reflexivity | ].
  apply (init_makes_a_fresh_handler (Mock.mock_w3 1) []
           (fst (run (ledger_step (Mock.mock_w3 1))
                   (__init__
                      "aaaaaaaaaaaaaaaaaaaaaaaaaaaaaaaaaaaaaaaaaaaaaaaaaaaaaaaaaaaaaaaa"
                      "base" (PyFloat.of_Z 1) tt) []))
           "aaaaaaaaaaaaaaaaaaaaaaaaaaaaaaaaaaaaaaaaaaaaaaaaaaaaaaaaaaaaaaaa"
           "base" (PyFloat.of_Z 1) scenario_handler).
  vm_compute. reflexivity.
Defined.

(** Rounding a mantissa that is not negative gives a float with the sign
    that was asked for, never NaN. *)
Lemma shr_1_nonneg mrs : 0 <= shr_m mrs -> 0 <= shr_m (shr_1 mrs).
Proof.
  destruct mrs as [[| [p | p |] | p] r s]; cbn; intros; lia.
Qed.

Lemma iter_shr_1_nonneg n :
  forall mrs, 0 <= shr_m mrs -> 0 <= shr_m (SpecFloat.iter_pos shr_1 n mrs).
Proof.
  induction n as [n IH | n IH |]; intros mrs H; cbn.
  - apply IH, IH, shr_1_nonneg, H.
  - apply IH, IH, H.
  - apply shr_1_nonneg, H.
Qed.

Lemma shr_fexp_nonneg prec emax m e l :
  0 <= m -> 0 <= shr_m (fst (shr_fexp prec emax m e l)).
Proof.
  intros H. unfold shr_fexp, shr.
  assert (H0 : 0 <= shr_m (shr_record_of_loc m l))
    by (destruct l as [| []]; exact H).
  destruct (_ - e)%Z; cbn [fst]; auto using iter_shr_1_nonneg.
Qed.

Lemma binary_round_aux_sign prec emax s m e l :
  0 <= m ->
  match binary_round_aux prec emax s m e l with
  | S754_zero s' | S754_infinity s' | S754_finite s' _ _ => s' = s
  | S754_nan => False
  end.
Proof.
  intros H. unfold binary_round_aux.
  pose proof (shr_fexp_nonneg prec emax m e l H) as H1.
  destruct (shr_fexp prec emax m e l) as [mrs' e']. cbn [fst] in H1.
  assert (H2 : 0 <= round_nearest_even (shr_m mrs') (loc_of_shr_record mrs')).
  { unfold round_nearest_even.
    destruct (loc_of_shr_record mrs') as [| []]; try lia.
    destruct (Z.even (shr_m mrs')); lia. }
  pose proof (shr_fexp_nonneg prec emax _ e' loc_Exact H2) as H3.
  destruct (shr_fexp prec emax _ e' loc_Exact) as [mrs'' e'']. cbn [fst] in H3.
  destruct (shr_m mrs''); [ reflexivity | | lia ].
  destruct (e'' <=? _)%Z; reflexivity.
Qed.

(** The float that a raw balance is reported as is not negative when the
    raw balance is not. *)
Lemma from_raw_nonneg (raw : Z) :
  0 <= raw -> PyFloat.nonneg (from_raw raw) = true.
Proof.
  intros H. unfold from_raw, PyFloat.int_truediv.
  change (PyFloat.exact_of_Z (10 ^ USDC_DECIMALS))
    with (S754_finite false 1000000 0).
  destruct raw as [| m | m]; [ reflexivity | | lia ].
  cbn [PyFloat.exact_of_Z SFdiv xorb].
  destruct (SFdiv_core_binary _ _ _ _ _ _) as [[mz ez] lz] eqn:Hdiv.
  assert (Hmz : 0 <= mz).
  { unfold SFdiv_core_binary in Hdiv.
    match type of Hdiv with
    | (let '(q, r) := Z.div_eucl ?a ?b in _) = _ =>
        pose proof (Z.div_eucl_eq a b) as Heq;
        pose proof (Z.mod_pos_bound a b) as Hmod;
        assert (Ha : 0 <= a);
        [ | unfold Z.modulo in Hmod;
            destruct (Z.div_eucl a b) as [q r];
            injection Hdiv as <- _ _;
            specialize (Heq ltac:(lia)); specialize (Hmod ltac:(lia));
            nia ]
    end.
    destruct (_ - _ - _)%Z; try lia.
    apply Z.shiftl_nonneg. lia. }
  pose proof (binary_round_aux_sign PyFloat.prec PyFloat.emax false mz ez lz Hmz) as Hs.
  destruct (binary_round_aux _ _ _ _ _ _) as [s | s | | s m' e'];
    try contradiction; subst s; reflexivity.
Qed.

(** X10.  [get_balance] only reads: whatever the state of the handler and
    of its budget, it makes one call, [balanceOf] of the handler's own
    address on the handler's token contract, and leaves the handler as it
    was.  An exception of that call reaches the caller as it is (it is not
    wrapped as in [pay]); a raw balance is reported divided by [10**6],
    and for a raw balance that is not negative the float reported is not
    negative nor NaN. *)
Theorem get_balance_only_reads (chain : ledger) history self :
  let answer :=
    chain _ (BalanceOf (_usdc self) (address (_account self))) history in
  let r := run (ledger_step chain) (get_balance self) history in
  fst r =
    (history ++ [EvBalanceOf (_usdc self) (address (_account self)) answer])%list /\
  fst (snd r) = self /\
  (forall e, answer = inl e -> snd (snd r) = inl e) /\
  (forall raw, answer = inr raw ->
     snd (snd r) = inr (from_raw raw) /\
     (0 <= raw -> PyFloat.nonneg (from_raw raw) = true)).
Proof.
  unfold get_balance, bind, get, call, ret, ledger_step. cbn.
  destruct (chain _ _ _) as [e | raw]; cbn;
    (split; [reflexivity |]); (split; [reflexivity |]); split;
    try discriminate; intros ? [= <-]; try reflexivity.
  split; [ reflexivity | apply from_raw_nonneg ].
Qed.

(** A call of [pay] over the budget, as a run. *)
Lemma pay_over_budget_refused chain history self amount recipient :
  PyFloat.gtb (PyFloat.add (_total_spent self) amount) (_max_budget self) = true ->
  run_pay chain history self amount recipient =
    (history,
     (self,
      inl (X402BudgetExceededError amount (_total_spent self)
             (_max_budget self) (remaining_budget self)))).
Proof.
  intros H. unfold run_pay, pay, bind, get, raise. cbn. rewrite H. reflexivity.
Qed.

(** * Further properties of the request executor *)

(** X11.  A client without payment handler never pays: whatever the server
    answers, [_request] sends exactly one request, does not call [pay],
    does not contact the chain and leaves the client as it was; on a 402
    answer it raises the [X402APIError] that asks for a private key. *)
Theorem request_without_handler_never_pays
    str_to_float srv chain history self method path params json_body :
  _payment self = None ->
  let r := run_request str_to_float srv chain history self method path params
             json_body in
  length (requests (http_log (fst r))) = 1%nat /\
  payments (http_log (fst r)) = [] /\
  chain_log (fst r) = history /\
  fst (snd r) = self /\
  (forall resp,
     srv [] (original_request self method path params json_body) = inr resp ->
     status_code resp = 402 ->
     snd (snd r) = inl (X402APIError NoPrivateKey)).
Proof.
  intros Hp. request_exec.
  all: cbn; repeat (split; [reflexivity |]); intros resp' Hr Hst;
    try discriminate Hr; injection Hr as <-; try reflexivity.
  all: match goal with
       | H : (status_code _ =? 402) = false |- _ =>
           apply Z.eqb_neq in H; contradiction
       end.
Qed.

(** The theorem at test_402_without_payment_handler. *)
Lemma request_without_handler_never_pays_witness :
  let r := run_request Mock.float_of_decimal
             (Mock.mock_session Mock.mock_response_402 Mock.mock_response_402)
             (Mock.mock_w3 1) [] Mock.x402_client_no_payment "GET" "/api/paid"
             None None in
  length (requests (http_log (fst r))) = 1%nat /\
  payments (http_log (fst r)) = [] /\
  chain_log (fst r) = [] /\
  fst (snd r) = Mock.x402_client_no_payment /\
  (forall resp,
     Mock.mock_session Mock.mock_response_402 Mock.mock_response_402 []
       (original_request Mock.x402_client_no_payment "GET" "/api/paid" None None) =
       inr resp ->
     status_code resp = 402 ->
     snd (snd r) = inl (X402APIError NoPrivateKey)).
Proof.
  apply (request_without_handler_never_pays Mock.float_of_decimal
           (Mock.mock_session Mock.mock_response_402 Mock.mock_response_402)
           (Mock.mock_w3 1) [] Mock.x402_client_no_payment "GET" "/api/paid"
           None None).
  reflexivity.
Defined.

(** X12.  When the answer to the request has a status other than 402,
    [_request] is over after that one request: no payment, no call to the
    chain, the client unchanged.  With a status of 400 or more it raises
    [X402APIError] with the status and the first 500 characters of the
    text; below 400 it returns (or raises) what [resp.json()] does. *)
Theorem request_without_payment_required
    str_to_float srv chain history self method path params json_body resp :
  srv [] (original_request self method path params json_body) = inr resp ->
  status_code resp <> 402 ->
  run_request str_to_float srv chain history self method path params json_body =
    ({| http_log :=
          [EvRequest (original_request self method path params json_body)
             (inr resp)];
        chain_log := history |},
     (self,
      if 400 <=? status_code resp
      then inl (X402APIError (ApiStatus (status_code resp)
                                (substring 0 500 (text resp))))
      else resp_json resp)).
Proof.
  intros Hsrv Hst. apply Z.eqb_neq in Hst.
  request_unfold. rewrite Hsrv. red_request. rewrite Hst. red_request.
  destruct (400 <=? status_code resp); reflexivity.
Qed.

(** The theorem at test_error_404_not_found. *)
Lemma request_without_payment_required_witness :
  let resp := {| status_code := 404; text := "Not found";
                 resp_json := inr (JObj ∅) |} in
  run_request Mock.float_of_decimal (Mock.mock_session resp resp)
    (Mock.mock_w3 1) [] Mock.x402_client_no_payment "GET" "/api/notfound"
    None None =
    ({| http_log :=
          [EvRequest
             (original_request Mock.x402_client_no_payment "GET"
                "/api/notfound" None None)
             (inr resp)];
        chain_log := [] |},
     (Mock.x402_client_no_payment,
      if 400 <=? status_code resp
      then inl (X402APIError (ApiStatus (status_code resp)
                                (substring 0 500 (text resp))))
      else resp_json resp)).
Proof.
  cbv zeta.
  apply request_without_payment_required; [ reflexivity | discriminate ].
Defined.

(** X13.  An exception of the transport on the first request reaches the
    caller as it is: it is not turned into [X402APIError], nothing is paid
    and the chain is not contacted. *)
Theorem request_transport_error_is_raised_as_is
    str_to_float srv chain history self method path params json_body e :
  srv [] (original_request self method path params json_body) = inl e ->
  run_request str_to_float srv chain history self method path params json_body =
    ({| http_log :=
          [EvRequest (original_request self method path params json_body)
             (inl e)];
        chain_log := history |},
     (self, inl e)).
Proof.
  intros Hsrv. request_unfold. rewrite Hsrv. reflexivity.
Qed.

(** The theorem at a server that cannot be reached. *)
Lemma request_transport_error_is_raised_as_is_witness :
  let e := Foreign "ConnectionError" "connection refused" in
  run_request Mock.float_of_decimal (fun _ _ => inl e) (Mock.mock_w3 1) []
    Mock.x402_client_with_payment "GET" "/api/paid" None None =
    ({| http_log :=
          [EvRequest
             (original_request Mock.x402_client_with_payment "GET" "/api/paid"
                None None)
             (inl e)];
        chain_log := [] |},
     (Mock.x402_client_with_payment, inl e)).
Proof.
  cbv zeta. apply request_transport_error_is_raised_as_is. reflexivity.
Defined.

(** X14.  What [pay] raises, [_request] raises: when the call of [pay]
    made for a 402 answer raises an exception ([X402BudgetExceededError],
    [X402PaymentError], or any other), [_request] raises that same
    exception, and no second request is sent. *)
Theorem request_raises_what_pay_raises
    str_to_float srv chain history self method path params json_body :
  let r := run_request str_to_float srv chain history self method path params
             json_body in
  forall amount recipient e,
    In (amount, recipient, inl e) (payments (http_log (fst r))) ->
    snd (snd r) = inl e /\
    length (requests (http_log (fst r))) = 1%nat.
Proof.
  request_exec.
  all: cbn; intros amount' recipient' e' Hin;
    repeat (destruct Hin as [Hin | Hin]); try contradiction;
    try discriminate Hin.
  all: injection Hin as <- <- <-; split; reflexivity.
Qed.

(** X15.  The budget is enforced end to end.  When a client with a handler
    gets a 402 answer asking for an amount that, added to what the handler
    has spent, exceeds its budget, [_request] raises the handler's
    [X402BudgetExceededError]: the chain is not contacted, nothing is
    spent, and the request is not sent again. *)
Theorem request_over_budget_is_refused
    str_to_float srv chain history self h method path params json_body
    resp body details s amount recipient :
  _payment self = Some h ->
  srv [] (original_request self method path params json_body) = inr resp ->
  status_code resp = 402 ->
  resp_json resp = inr (JObj body) ->
  body !! "payment_details" = Some (JObj details) ->
  details !! "amount" = Some (JStr s) ->
  str_to_float s = Some amount ->
  details !! "recipient" = Some (JStr recipient) ->
  recipient <> "" ->
  PyFloat.gtb (PyFloat.add (_total_spent h) amount) (_max_budget h) = true ->
  let r := run_request str_to_float srv chain history self method path params
             json_body in
  snd (snd r) =
    inl (X402BudgetExceededError amount (_total_spent h) (_max_budget h)
           (remaining_budget h)) /\
  chain_log (fst r) = history /\
  _payment (fst (snd r)) = Some h /\
  length (requests (http_log (fst r))) = 1%nat.
Proof.
  intros Hp Hsrv Hst Hjson Hdetails Hamount Hparse Hrecipient Hne Hgt.
  apply Z.eqb_eq in Hst.
  assert (Hf : float_of str_to_float (JStr s) = inr amount)
    by (cbn; rewrite Hparse; reflexivity).
  assert (Ht : truthy (JStr recipient) = true).
  { cbn. apply negb_true_iff, String.eqb_neq. exact Hne. }
  pose proof (pay_over_budget_refused chain history h amount recipient Hgt) as Hpay.
  request_unfold. rewrite Hsrv. red_request. rewrite Hst. red_request.
  rewrite Hp. red_request. rewrite Hjson. red_request.
  rewrite Hdetails. cbn [default from_option id]. red_request.
  rewrite Hamount, Hrecipient. cbn [default from_option id]. red_request.
  rewrite Ht. red_request. rewrite Hf. red_request. rewrite Hp. red_request.
  rewrite Hpay. red_request. cbn. auto.
Qed.

(** The theorem at the specification's scenario, reached through a 402
    answer: 0.80 spent of 1.00, and a server that asks for 0.25. *)
Lemma request_over_budget_is_refused_witness :
  let self := {| _base_url := "https://test.example.com"; _timeout := 30;
                 _payment := Some after_two_payments |} in
  let resp := Mock.payment_required (Mock.details_with "0.25") in
  let r := run_request Mock.float_of_decimal (Mock.mock_session resp resp)
             (Mock.mock_w3 1) [] self "GET" "/api/paid" None None in
  snd (snd r) =
    inl (X402BudgetExceededError (PyFloat.micro 250000)
           (_total_spent after_two_payments) (_max_budget after_two_payments)
           (remaining_budget after_two_payments)) /\
  chain_log (fst r) = [] /\
  _payment (fst (snd r)) = Some after_two_payments /\
  length (requests (http_log (fst r))) = 1%nat.
Proof.
  cbv zeta.
  apply (request_over_budget_is_refused Mock.float_of_decimal
           (Mock.mock_session
              (Mock.payment_required (Mock.details_with "0.25"))
              (Mock.payment_required (Mock.details_with "0.25")))
           (Mock.mock_w3 1) []
           {| _base_url := "https://test.example.com"; _timeout := 30;
              _payment := Some after_two_payments |}
           after_two_payments "GET" "/api/paid" None None
           (Mock.payment_required (Mock.details_with "0.25"))
           (Mock.payment_required_fields (Mock.details_with "0.25"))
           (Mock.details_with "0.25") "0.25" (PyFloat.micro 250000)
           Mock.TEST_RECIPIENT_ADDRESS).
  - reflexivity.
  - reflexivity.
  - reflexivity.
  - reflexivity.
  - vm_compute. reflexivity.
  - vm_compute. reflexivity.
  - vm_compute. reflexivity.
  - vm_compute. reflexivity.
  - discriminate.
  - vm_compute. reflexivity.
Defined.

(** The handler that a call of [pay] that returned has left. *)
Ltac paid_state :=
  match goal with
  | H : run_pay ?c ?hi ?h ?a ?r = (_, (_, inr ?tx)) |- _ =>
      let Hh := fresh "Hh" in
      let Hs := fresh "Hs" in
      pose proof (pay_returns c hi h a r tx) as Hh;
      rewrite H in Hh; cbn [fst snd] in Hh;
      pose proof (proj2 (Hh eq_refl)) as Hs; clear Hh; subst
  end.

(** X16.  The request sent again after a payment is the original one
    (same method, URL, parameters, body and timeout) with exactly two
    headers: X-Payment-TxHash, the identifier that [pay] returned, and
    X-Payment-Chain, the chain key of the client's handler. *)
Theorem request_retry_carries_the_proof
    str_to_float srv chain history self method path params json_body :
  let r := run_request str_to_float srv chain history self method path params
             json_body in
  forall rq answer,
    requests (http_log (fst r)) !! 1%nat = Some (rq, answer) ->
    exists h amount recipient tx,
      _payment self = Some h /\
      payments (http_log (fst r)) = [(amount, recipient, inr tx)] /\
      rq_method rq = method /\
      rq_url rq = _base_url self ++ path /\
      rq_params rq = params /\
      rq_json rq = json_body /\
      rq_timeout rq = _timeout self /\
      rq_headers rq =
        Some (<["X-Payment-TxHash" := tx]>
                (<["X-Payment-Chain" := _chain_key h]> ∅)).
Proof.
  request_exec.
  all: cbn; intros rq answer Hrq; try discriminate Hrq.
  all: injection Hrq as <- <-;
    paid_state;
    eexists _, _, _, _; repeat (split; [reflexivity |]); reflexivity.
Qed.

(** X17.  A payment that was confirmed stays recorded, whatever comes
    after it: when [pay] returned [tx] during a call of [_request], the
    handler of the client has, after the call, the amount added to what it
    had spent and [tx] among its confirmed identifiers, also when the
    request sent again fails and [_request] raises. *)
Theorem request_keeps_the_payment_recorded
    str_to_float srv chain history self method path params json_body :
  let r := run_request str_to_float srv chain history self method path params
             json_body in
  forall amount recipient tx,
    In (amount, recipient, inr tx) (payments (http_log (fst r))) ->
    exists h h',
      _payment self = Some h /\
      _payment (fst (snd r)) = Some h' /\
      _total_spent h' = PyFloat.add (_total_spent h) amount /\
      tx ∈ _used_tx_hashes h' /\
      _max_budget h' = _max_budget h.
Proof.
  request_exec.
  all: cbn; intros amount' recipient' tx' Hin;
    repeat (destruct Hin as [Hin | Hin]); try contradiction;
    try discriminate Hin.
  all: injection Hin as <- <- <-;
    paid_state;
    eexists _, _; repeat (split; [reflexivity |]); cbn;
    split; [ set_solver | reflexivity ].
Qed.

(** A server that asks for payment and then fails: the answer to the
    request sent again is a 500, [_request] raises, and the 0.001 paid is
    counted. *)
Example paid_and_then_refused :
  let failure := {| status_code := 500; text := "Internal server error";
                    resp_json := inr (JObj ∅) |} in
  let r := run_request Mock.float_of_decimal
             (Mock.mock_session Mock.mock_response_402 failure)
             (Mock.mock_w3 1) [] Mock.x402_client_with_payment "GET" "/api/paid"
             None None in
  snd (snd r) = inl (X402APIError (ApiStatus 500 "Internal server error")) /\
  option_map _total_spent (_payment (fst (snd r))) = Some (PyFloat.micro 1000).
Proof.
  vm_compute. split; reflexivity.
Qed.

(** What the checks made before [pay] say of the body of the answer. *)
Lemma instruction_inversion (j j0 j1 j2 : json) (s : string) :
  dict_get j "payment_details" (JObj ∅) = inr j0 ->
  dict_get j0 "amount" (JStr "0") = inr j1 ->
  dict_get j0 "recipient" JNull = inr j2 ->
  truthy j2 = true ->
  sliceable j2 = inr s ->
  exists body details : gmap string json,
    j = JObj body /\
    body !! "payment_details" = Some (JObj details) /\
    details !! "recipient" = Some (JStr s) /\
    s <> "" /\
    j1 = default (JStr "0") (details !! "amount").
Proof.
  intros Hd Ha Hr Ht Hs.
  destruct j as [| | | | | | body]; try discriminate Hd.
  cbn in Hd. injection Hd as <-.
  destruct (body !! "payment_details") as [j0 |] eqn:Hbody; cbn in Ha, Hr.
  - destruct j0 as [| | | | | | details]; try discriminate Ha.
    cbn in Ha, Hr. injection Ha as <-. injection Hr as <-.
    destruct (details !! "recipient") as [j2 |] eqn:Hrec; cbn in Ht, Hs;
      [ | discriminate Ht ].
    destruct j2; try discriminate Hs. injection Hs as ->.
    exists body, details. repeat (split; [reflexivity || assumption |]).
    split; [ | reflexivity ].
    cbn in Ht. apply negb_true_iff, String.eqb_neq in Ht. exact Ht.
  - injection Hr as <-. rewrite lookup_empty in Ht. discriminate Ht.
Qed.

(** X18.  [pay] is called with what the 402 answer asks, whatever that
    is.  Whenever [_request] calls [pay], the first answer had status 402
    and a body that is an object with an object of payment details; the
    recipient passed to [pay] is the non-empty string found there, and the
    amount is [float] of the amount found there, or of "0" when there is
    none.  And the other way round: for a client with a handler, every such
    answer makes [_request] call [pay], right after the first request, on
    the handler, with that amount and that recipient: no amount is turned
    down before [pay], be it negative, NaN, infinite or beyond any bound. *)
Theorem request_pays_what_the_answer_asks
    str_to_float srv chain history self method path params json_body :
  let r := run_request str_to_float srv chain history self method path params
             json_body in
  (forall amount recipient result,
     In (amount, recipient, result) (payments (http_log (fst r))) ->
     exists resp body details,
       srv [] (original_request self method path params json_body) = inr resp /\
       status_code resp = 402 /\
       resp_json resp = inr (JObj body) /\
       body !! "payment_details" = Some (JObj details) /\
       details !! "recipient" = Some (JStr recipient) /\
       recipient <> "" /\
       float_of str_to_float (default (JStr "0") (details !! "amount")) =
         inr amount) /\
  (forall h resp body details recipient amount,
     _payment self = Some h ->
     srv [] (original_request self method path params json_body) = inr resp ->
     status_code resp = 402 ->
     resp_json resp = inr (JObj body) ->
     body !! "payment_details" = Some (JObj details) ->
     details !! "recipient" = Some (JStr recipient) ->
     recipient <> "" ->
     float_of str_to_float (default (JStr "0") (details !! "amount")) =
       inr amount ->
     exists rest,
       http_log (fst r) =
         EvRequest (original_request self method path params json_body)
           (inr resp)
         :: EvPay h amount recipient
              (snd (run_pay chain history h amount recipient))
         :: rest).
Proof.
  cbv zeta. split.
  - request_exec.
    all: cbn; intros amount' recipient' result' Hin;
      repeat (destruct Hin as [Hin | Hin]); try contradiction;
      try discriminate Hin.
    all: injection Hin as <- <- _;
      match goal with
      | H1 : dict_get _ "payment_details" _ = _,
        H2 : dict_get _ "amount" _ = _,
        H3 : dict_get _ "recipient" _ = _,
        H4 : truthy _ = true,
        H5 : sliceable _ = _,
        H6 : (status_code _ =? 402) = true |- _ =>
          destruct (instruction_inversion _ _ _ _ _ H1 H2 H3 H4 H5)
            as (body & details & -> & Hb & Hr & Hne & ->);
          apply Z.eqb_eq in H6;
          eexists; exists body, details;
          repeat (split; [ first [ reflexivity | eassumption ] |]);
          assumption
      end.
  - intros h resp body details recipient amount
      Hp Hsrv Hst Hjson Hdetails Hrecipient Hne Hf.
    apply Z.eqb_eq in Hst.
    assert (Ht : truthy (JStr recipient) = true).
    { cbn. apply negb_true_iff, String.eqb_neq. exact Hne. }
    request_unfold. rewrite Hsrv. red_request. rewrite Hst. red_request.
    rewrite Hp. red_request. rewrite Hjson. red_request.
    rewrite Hdetails. cbn [default from_option id]. red_request.
    rewrite Hrecipient. cbn [default from_option id]. red_request.
    rewrite Ht. red_request. rewrite Hf. red_request. rewrite Hp. red_request.
    destruct (run_pay chain history h amount recipient)
      as [history' [h' [e | tx]]]; red_request.
    + eexists. reflexivity.
    + match goal with
      | |- context [match srv ?l ?rq with _ => _ end] =>
          destruct (srv l rq) as [e | resp']; red_request
      end.
      * eexists. reflexivity.
      * destruct (400 <=? status_code resp'); red_request;
          [ | destruct (resp_json resp') ]; eexists; reflexivity.
Qed.

(** * The constructor and the public methods of the client *)

(** Running a sequence: the run of the first part, then the run of the
    rest in the world it has left. *)
Lemma run_io_bind {E W A B} (step : forall X, E X -> W -> W * X)
    (p : io E A) (f : A -> io E B) (w : W) :
  run step (io_bind p f) w =
    run step (f (snd (run step p w))) (fst (run step p w)).
Proof.
  revert w. induction p as [a | X e k IH]; intros w; cbn.
  - reflexivity.
  - destruct (step X e w) as [w' x]. apply IH.
Qed.

Lemma rstrip_no_trailing (c : ascii) (s : string) :
  forall t, X402Client.rstrip c s <> t ++ String c "".
Proof.
  induction s as [| a s IH]; intros t; cbn.
  - destruct t; discriminate.
  - destruct (X402Client.rstrip c s) as [| b r] eqn:Hr.
    + destruct (Ascii.eqb_spec a c) as [-> | Hne].
      * destruct t; discriminate.
      * destruct t as [| a' t]; cbn; [ intros [= H]; exact (Hne H) | ].
        intros [= _ H]. destruct t; discriminate.
    + destruct t as [| a' t]; cbn; [ discriminate | ].
      intros [= _ H]. exact (IH t H).
Qed.

Lemma rstrip_tail (c : ascii) (s : string) :
  exists tail,
    s = X402Client.rstrip c s ++ tail /\
    forall i a, String.get i tail = Some a -> a = c.
Proof.
  induction s as [| a s (tail & Hs & Htail)]; cbn.
  - exists "". split; [ reflexivity | intros i a; destruct i; discriminate ].
  - destruct (X402Client.rstrip c s) as [| b r] eqn:Hr; cbn in Hs.
    + subst s. destruct (Ascii.eqb_spec a c) as [-> | Hne].
      * exists (String c tail). split; [ reflexivity | ].
        intros [| i] a Ha; cbn in Ha; [ congruence | eauto ].
      * exists tail. split; [ reflexivity | exact Htail ].
    + exists tail. split; [ rewrite Hs at 1; reflexivity | exact Htail ].
Qed.

(** What [X402Client.__init__] does, by cases on the private key. *)
Lemma client_init_run chain history private_key base_url chain_name budget timeout :
  run (ledger_step chain)
    (X402Client.__init__ private_key base_url chain_name budget timeout tt)
    history =
  match private_key with
  | Some k =>
      if String.eqb k "" then
        (history,
         (tt, inr {| _base_url := X402Client.rstrip "/" base_url;
                     _timeout := timeout; _payment := None |}))
      else
        let r := run (ledger_step chain) (__init__ k chain_name budget tt)
                   history in
        (fst r,
         (tt,
          match snd (snd r) with
          | inl e => inl e
          | inr p => inr {| _base_url := X402Client.rstrip "/" base_url;
                            _timeout := timeout; _payment := Some p |}
          end))
  | None =>
      (history,
       (tt, inr {| _base_url := X402Client.rstrip "/" base_url;
                   _timeout := timeout; _payment := None |}))
  end.
Proof.
  unfold X402Client.__init__.
  destruct private_key as [k |]; [ | reflexivity ].
  destruct (String.eqb k ""); [ reflexivity | ].
  unfold bind at 1. rewrite run_io_bind. cbv zeta.
  destruct (run (ledger_step chain) (__init__ k chain_name budget tt) history)
    as [history' [[] [e | p]]]; reflexivity.
Qed.

(** X19.  The base URL of a client never ends with a slash: the one it is
    given is kept up to its trailing slashes, which are all removed. *)
Theorem client_base_url_has_no_trailing_slash
    chain history history' private_key base_url chain_name budget timeout self :
  run (ledger_step chain)
    (X402Client.__init__ private_key base_url chain_name budget timeout tt)
    history = (history', (tt, inr self)) ->
  (forall t, _base_url self <> t ++ "/") /\
  (exists tail,
     base_url = _base_url self ++ tail /\
     forall i a, String.get i tail = Some a -> a = "/"%char) /\
  _timeout self = timeout.
Proof.
  rewrite client_init_run. intros H.
  assert (Hurl : _base_url self = X402Client.rstrip "/" base_url /\
                 _timeout self = timeout).
  { destruct private_key as [k |].
    - destruct (String.eqb k "").
      + injection H as _ <-. auto.
      + cbv zeta in H. destruct (snd (snd (run _ _ _))) as [e | p];
          [ discriminate | ]. injection H as _ <-. auto.
    - injection H as _ <-. auto. }
  destruct Hurl as [-> ->].
  split; [ apply rstrip_no_trailing | ].
  split; [ apply rstrip_tail | reflexivity ].
Qed.

(** The theorem at test_init_strips_trailing_slash. *)
Lemma client_base_url_has_no_trailing_slash_witness :
  let self := {| _base_url := "https://api.test.com"; _timeout := 30;
                 _payment := None |} in
  (forall t, _base_url self <> t ++ "/") /\
  (exists tail,
     "https://api.test.com/" = _base_url self ++ tail /\
     forall i a, String.get i tail = Some a -> a = "/"%char) /\
  _timeout self = 30.
Proof.
  cbv zeta.
  apply (client_base_url_has_no_trailing_slash (Mock.mock_w3 1) [] [] None
           "https://api.test.com/" "base" (PyFloat.of_Z 1) 30).
  vm_compute. reflexivity.
Defined.

(** X20.  The chain name is checked only when a private key is given.
    With no key, or with the empty string as key, the client is made
    without handler and without any call to web3, whatever the chain
    name, supported or not; with a key, a chain name other than "base",
    "base-sepolia" and "skale" makes the constructor raise [ValueError]. *)
Theorem client_checks_the_chain_only_with_a_key
    chain history private_key base_url chain_name budget timeout :
  let r := run (ledger_step chain)
             (X402Client.__init__ private_key base_url chain_name budget
                timeout tt) history in
  (private_key = None \/ private_key = Some "" ->
   r = (history,
        (tt, inr {| _base_url := X402Client.rstrip "/" base_url;
                    _timeout := timeout; _payment := None |}))) /\
  (forall k,
     private_key = Some k -> k <> "" ->
     chain_name <> "base" -> chain_name <> "base-sepolia" ->
     chain_name <> "skale" ->
     r = (history, (tt, inl ValueError))).
Proof.
  cbv zeta. rewrite client_init_run. split.
  - intros [-> | ->]; reflexivity.
  - intros k -> Hk H1 H2 H3.
    apply String.eqb_neq in Hk. rewrite Hk. cbv zeta.
    unfold __init__, CHAIN_CONFIGS. cbn [list_to_map foldr uncurry fst snd].
    rewrite !lookup_insert_ne by congruence. rewrite lookup_empty.
    reflexivity.
Qed.

Lemma run_bind {E W S A B} (step : forall X, E X -> W -> W * X)
    (m : M E S A) (f : A -> M E S B) (s : S) (w : W) :
  run step (bind m f s) w =
    let r := run step (m s) w in
    match snd (snd r) with
    | inl e => (fst r, (fst (snd r), inl e))
    | inr a => run step (f a (fst (snd r))) (fst r)
    end.
Proof.
  unfold bind. rewrite run_io_bind. cbv zeta.
  destruct (run step (m s) w) as [w' [s' [e | a]]]; reflexivity.
Qed.

(** X21.  [search] and [list_services] are [_request] on /api/services
    (with the query as parameter q, or with no parameter) followed by one
    step on the body returned: what [_request] raises they raise, with the
    same requests and payments.  A body that is a list is returned as it
    is; of a body that is an object, the value under "services" is
    returned if the key is there (whatever the value, null included), else
    the value under "data", else the empty list; any other body raises
    [AttributeError]. *)
Theorem listing_methods_normalise_the_body
    str_to_float srv chain history self query :
  let listed params :=
    let r := run_request str_to_float srv chain history self "GET"
               "/api/services" params None in
    (fst r,
     (fst (snd r),
      match snd (snd r) with
      | inl e => inl e
      | inr data => X402Client.services_of data
      end)) in
  X402Client.run_method srv chain history self
    (X402Client.search str_to_float query) =
    listed (Some {[ "q" := query ]}) /\
  X402Client.run_method srv chain history self
    (X402Client.list_services str_to_float) = listed None /\
  (forall l, X402Client.services_of (JArr l) = inr (JArr l)) /\
  (forall (d : gmap string json) v,
     d !! "services" = Some v -> X402Client.services_of (JObj d) = inr v) /\
  (forall (d : gmap string json) v,
     d !! "services" = None -> d !! "data" = Some v ->
     X402Client.services_of (JObj d) = inr v) /\
  (forall d : gmap string json,
     d !! "services" = None -> d !! "data" = None ->
     X402Client.services_of (JObj d) = inr (JArr [])) /\
  (forall data,
     match data with
     | JArr _ | JObj _ => True
     | _ => X402Client.services_of data = inl AttributeError
     end).
Proof.
  cbv zeta. unfold X402Client.run_method, X402Client.search,
    X402Client.list_services, run_request.
  rewrite !run_bind. cbv zeta.
  split; [ | split ].
  - destruct (run _ _ _) as [w [c [e | data]]]; reflexivity.
  - destruct (run _ _ _) as [w [c [e | data]]]; reflexivity.
  - unfold X402Client.services_of, dict_get.
    repeat split.
    + intros d v ->. reflexivity.
    + intros d v -> ->. reflexivity.
    + intros d -> ->. reflexivity.
    + intros []; exact I || reflexivity.
Qed.

(** * The tool *)

(** What [_run] does with a call of [call_api]. *)
Lemma tool_run_is_call_api
    str_to_float str_of_json str_of_exn srv chain history self query :
  X402BazaarTool.run_tool str_to_float str_of_json str_of_exn srv chain
    history self query =
  let r :=
    X402Client.run_method srv chain history (X402BazaarTool._client self)
      (X402Client.call_api str_to_float (X402BazaarTool.endpoint self)
         (Some {[ X402BazaarTool.param_name self := query ]})) in
  (fst r,
   (X402BazaarTool.set_client (fst (snd r)) self,
    inr match snd (snd r) with
        | inr result => str_of_json result
        | inl exc =>
            "Error calling x402 Bazaar (" ++ X402BazaarTool.endpoint self
            ++ "): " ++ str_of_exn exc
        end)).
Proof.
  unfold X402BazaarTool.run_tool, X402BazaarTool._run, X402Client.run_method,
    X402BazaarTool.with_client.
  rewrite run_bind. cbn [get run fst snd]. unfold try_except.
  rewrite run_io_bind. rewrite run_bind. rewrite run_io_bind. cbv zeta.
  destruct (run (client_step srv chain)
              (X402Client.call_api str_to_float (X402BazaarTool.endpoint self)
                 (Some {[ X402BazaarTool.param_name self := query ]})
                 (X402BazaarTool._client self))
              {| http_log := []; chain_log := history |})
    as [w [c [e | data]]]; reflexivity.
Qed.

(** X22.  [_run] never raises.  It is one call of [call_api] on the
    tool's endpoint with the query under the tool's parameter name, with
    the same requests, payments and calls to the chain; it returns [str]
    of the result, and when [call_api] raises, whatever the exception
    (budget exceeded, failed payment, API error, transport error), it
    returns the text "Error calling x402 Bazaar (endpoint): " followed by
    [str] of the exception.  The client of the tool is left as [call_api]
    has left it, so a payment made before a failure stays counted. *)
Theorem tool_run_never_raises
    str_to_float str_of_json str_of_exn srv chain history self query :
  let r :=
    X402Client.run_method srv chain history (X402BazaarTool._client self)
      (X402Client.call_api str_to_float (X402BazaarTool.endpoint self)
         (Some {[ X402BazaarTool.param_name self := query ]})) in
  let t := X402BazaarTool.run_tool str_to_float str_of_json str_of_exn srv
             chain history self query in
  fst t = fst r /\
  X402BazaarTool._client (fst (snd t)) = fst (snd r) /\
  X402BazaarTool.endpoint (fst (snd t)) = X402BazaarTool.endpoint self /\
  X402BazaarTool.param_name (fst (snd t)) = X402BazaarTool.param_name self /\
  (exists text, snd (snd t) = inr text) /\
  (forall result, snd (snd r) = inr result ->
     snd (snd t) = inr (str_of_json result)) /\
  (forall exc, snd (snd r) = inl exc ->
     snd (snd t) =
       inr ("Error calling x402 Bazaar (" ++ X402BazaarTool.endpoint self
            ++ "): " ++ str_of_exn exc)).
Proof.
  cbv zeta. rewrite tool_run_is_call_api. cbv zeta. cbn [fst snd].
  repeat (split; [ reflexivity |]).
  split; [ eexists; reflexivity | ].
  split; intros ? ->; reflexivity.
Qed.

(** What [X402BazaarTool.__init__] does: the client is made, and the four
    names are kept. *)
Lemma tool_init_run chain history name description endpoint param_name
    private_key chain_name budget base_url :
  run (ledger_step chain)
    (X402BazaarTool.__init__ name description endpoint param_name private_key
       chain_name budget base_url tt) history =
  let r := run (ledger_step chain)
             (X402Client.__init__ private_key base_url chain_name budget
                X402Client.DEFAULT_TIMEOUT tt) history in
  (fst r,
   (tt,
    match snd (snd r) with
    | inl e => inl e
    | inr c =>
        inr {| X402BazaarTool.name := name;
               X402BazaarTool.description := description;
               X402BazaarTool.endpoint := endpoint;
               X402BazaarTool.param_name := param_name;
               X402BazaarTool._client := c |}
    end)).
Proof.
  unfold X402BazaarTool.__init__. rewrite run_bind. cbv zeta.
  destruct (run (ledger_step chain) (X402Client.__init__ _ _ _ _ _ tt) history)
    as [history' [[] [e | c]]]; reflexivity.
Qed.

(** The endpoint and the parameter name of a tool that [__init__] returned. *)
Lemma tool_init_fields chain history history' name description endpoint
    param_name private_key chain_name budget base_url t :
  run (ledger_step chain)
    (X402BazaarTool.__init__ name description endpoint param_name private_key
       chain_name budget base_url tt) history = (history', (tt, inr t)) ->
  X402BazaarTool.name t = name /\
  X402BazaarTool.endpoint t = endpoint /\
  X402BazaarTool.param_name t = param_name /\
  run (ledger_step chain)
    (X402Client.__init__ private_key base_url chain_name budget
       X402Client.DEFAULT_TIMEOUT tt) history =
    (history', (tt, inr (X402BazaarTool._client t))).
Proof.
  rewrite tool_init_run. cbv zeta.
  destruct (run (ledger_step chain) (X402Client.__init__ _ _ _ _ _ tt) history)
    as [h' [[] [e | c]]]; cbn; [ discriminate | ].
  intros [= <- <-]. auto.
Qed.

(** X23.  The tools of the factories and the methods of the client agree:
    what a tool made by [web_search], [scrape], [weather], [crypto] or
    [image] asks of its client when it is run on a query is the call that
    the client's method of that purpose ([web_search], [scrape],
    [weather], [crypto], [generate_image]) makes on that query: the same
    path and the same parameter name. *)
Theorem factory_tools_call_the_client_methods
    chain history history' private_key chain_name budget t str_to_float query :
  let asked :=
    X402Client.call_api str_to_float (X402BazaarTool.endpoint t)
      (Some {[ X402BazaarTool.param_name t := query ]}) in
  let made factory :=
    run (ledger_step chain) (factory private_key chain_name budget tt) history =
      (history', (tt, inr t)) in
  (made X402BazaarTool.web_search ->
   asked = X402Client.web_search str_to_float query) /\
  (made X402BazaarTool.scrape ->
   asked = X402Client.scrape str_to_float query) /\
  (made X402BazaarTool.weather ->
   asked = X402Client.weather str_to_float query) /\
  (made X402BazaarTool.crypto ->
   asked = X402Client.crypto str_to_float query) /\
  (made X402BazaarTool.image ->
   asked = X402Client.generate_image str_to_float query).
Proof.
  cbv zeta.
  repeat split; intros H; apply tool_init_fields in H;
    destruct H as (_ & -> & -> & _); reflexivity.
Qed.

(** A client without handler, as a run. *)
Lemma request_no_handler
    str_to_float srv chain history self method path params json_body :
  _payment self = None ->
  let r := run_request str_to_float srv chain history self method path params
             json_body in
  length (requests (http_log (fst r))) = 1%nat /\
  payments (http_log (fst r)) = [] /\
  chain_log (fst r) = history.
Proof.
  intros Hp. request_exec.
  all: cbn; auto.
Qed.

(** X24.  The marketplace search tool made without private key is free of
    any payment: making it calls neither web3 nor eth_account and checks
    no chain name, and every run of it, whatever the server answers,
    sends one request, calls [pay] never and leaves the chain alone. *)
Theorem free_search_tool_never_pays
    chain history history' chain_name budget t :
  run (ledger_step chain) (X402BazaarTool.search None chain_name budget tt)
    history = (history', (tt, inr t)) ->
  history' = history /\
  X402BazaarTool.endpoint t = "/api/services" /\
  X402BazaarTool.param_name t = "q" /\
  _payment (X402BazaarTool._client t) = None /\
  forall str_to_float str_of_json str_of_exn srv chain' history0 query,
    let r := X402BazaarTool.run_tool str_to_float str_of_json str_of_exn srv
               chain' history0 t query in
    length (requests (http_log (fst r))) = 1%nat /\
    payments (http_log (fst r)) = [] /\
    chain_log (fst r) = history0.
Proof.
  intros H. apply tool_init_fields in H. destruct H as (_ & He & Hp & Hc).
  rewrite client_init_run in Hc. injection Hc as <- Hc.
  assert (Hnone : _payment (X402BazaarTool._client t) = None)
    by (rewrite <- Hc; reflexivity).
  repeat (split; [ assumption || reflexivity |]).
  intros str_to_float str_of_json str_of_exn srv chain' history0 query.
  cbv zeta. rewrite tool_run_is_call_api. cbv zeta. cbn [fst snd].
  apply (request_no_handler str_to_float srv chain' history0
           (X402BazaarTool._client t) "GET" _ _ None Hnone).
Qed.

(** The theorem at the tool of test_search_factory_free_endpoint, made
    with a chain name that no handler would accept. *)
Lemma free_search_tool_never_pays_witness :
  let t :=
    {| X402BazaarTool.name := "x402_search_marketplace";
       X402BazaarTool.description :=
         "Search the x402 Bazaar marketplace for API services. "
         ++ "Input is a search query. Returns matching services with "
         ++ "name, description, price, and endpoint URL.";
       X402BazaarTool.endpoint := "/api/services";
       X402BazaarTool.param_name := "q";
       X402BazaarTool._client :=
         {| _base_url := "https://x402-api.onrender.com"; _timeout := 30;
            _payment := None |} |} in
  [] = ([] : list ledger_event) /\
  X402BazaarTool.endpoint t = "/api/services" /\
  X402BazaarTool.param_name t = "q" /\
  _payment (X402BazaarTool._client t) = None /\
  forall str_to_float str_of_json str_of_exn srv chain' history0 query,
    let r := X402BazaarTool.run_tool str_to_float str_of_json str_of_exn srv
               chain' history0 t query in
    length (requests (http_log (fst r))) = 1%nat /\
    payments (http_log (fst r)) = [] /\
    chain_log (fst r) = history0.
Proof.
  cbv zeta.
  apply (free_search_tool_never_pays (Mock.mock_w3 1) [] [] "no-such-chain"
           (PyFloat.of_Z 1)).
  vm_compute. reflexivity.
Defined.

(** The tools of tests/test_tool.py: with the test key on "skale" every
    factory returns a tool, and the one of [crypto] asks for /api/crypto
    with the parameter coin. *)
Example factories_make_tools :
  let made factory :=
    snd (snd (run (ledger_step (Mock.mock_w3 1))
                (factory Mock.TEST_PRIVATE_KEY "skale" (PyFloat.of_Z 1) tt) [])) in
  (forall factory,
     In factory [X402BazaarTool.web_search; X402BazaarTool.scrape;
                 X402BazaarTool.weather; X402BazaarTool.crypto;
                 X402BazaarTool.image] ->
     exists t, made factory = inr t /\
               exists h, _payment (X402BazaarTool._client t) = Some h /\
                         _chain_key h = "skale") /\
  exists t, made X402BazaarTool.crypto = inr t /\
            X402BazaarTool.name t = "x402_crypto" /\
            X402BazaarTool.endpoint t = "/api/crypto" /\
            X402BazaarTool.param_name t = "coin".
Proof.
  cbv zeta. split.
  - intros factory Hin.
    repeat (destruct Hin as [<- | Hin];
            [ eexists; split; [ vm_compute; reflexivity | ];
              eexists; split; reflexivity | ]).
    destruct Hin.
  - eexists. split; [ vm_compute; reflexivity | ]. repeat split.
Qed.

(** * The theorems on payments during a request, at the mocked server *)

(** A payment that fails on the chain: the receipt has status 0, [pay]
    raises, and [_request] raises the same after its single request. *)
Lemma request_raises_what_pay_raises_witness :
  let r := run_request Mock.float_of_decimal
             (Mock.mock_session Mock.mock_response_402 Mock.mock_response_200)
             (Mock.mock_w3 0) [] Mock.x402_client_with_payment "GET"
             "/api/paid" None None in
  In (PyFloat.micro 1000, Mock.TEST_RECIPIENT_ADDRESS,
      inl (X402PaymentError (FailedOnChain "0x01")))
     (payments (http_log (fst r))) /\
  snd (snd r) = inl (X402PaymentError (FailedOnChain "0x01")) /\
  length (requests (http_log (fst r))) = 1%nat.
Proof.
  cbv zeta.
  assert (H : In (PyFloat.micro 1000, Mock.TEST_RECIPIENT_ADDRESS,
                  inl (X402PaymentError (FailedOnChain "0x01")))
                (payments (http_log (fst
                   (run_request Mock.float_of_decimal
                      (Mock.mock_session Mock.mock_response_402
                         Mock.mock_response_200)
                      (Mock.mock_w3 0) [] Mock.x402_client_with_payment "GET"
                      "/api/paid" None None)))))
    by (vm_compute; left; reflexivity).
  split; [ exact H | ].
  exact (request_raises_what_pay_raises Mock.float_of_decimal _ _ _ _ _ _ _ _
           _ _ _ H).
Defined.

(** test_402_with_payment_retry: the second request of the paid call. *)
Lemma request_retry_carries_the_proof_witness :
  let self := Mock.x402_client_with_payment in
  let r := run_request Mock.float_of_decimal
             (Mock.mock_session Mock.mock_response_402 Mock.mock_response_200)
             (Mock.mock_w3 1) [] self "GET" "/api/paid" None None in
  let rq := retried_request self "GET" "/api/paid" None None "0x01" "base" in
  requests (http_log (fst r)) !! 1%nat = Some (rq, inr Mock.mock_response_200) /\
  exists h amount recipient tx,
    _payment self = Some h /\
    payments (http_log (fst r)) = [(amount, recipient, inr tx)] /\
    rq_method rq = "GET" /\
    rq_url rq = _base_url self ++ "/api/paid" /\
    rq_params rq = None /\
    rq_json rq = None /\
    rq_timeout rq = _timeout self /\
    rq_headers rq =
      Some (<["X-Payment-TxHash" := tx]>
              (<["X-Payment-Chain" := _chain_key h]> ∅)).
Proof.
  cbv zeta.
  assert (H : requests (http_log (fst
                (run_request Mock.float_of_decimal
                   (Mock.mock_session Mock.mock_response_402
                      Mock.mock_response_200)
                   (Mock.mock_w3 1) [] Mock.x402_client_with_payment "GET"
                   "/api/paid" None None))) !! 1%nat =
              Some (retried_request Mock.x402_client_with_payment "GET"
                      "/api/paid" None None "0x01" "base",
                    inr Mock.mock_response_200))
    by (vm_compute; reflexivity).
  split; [ exact H | ].
  exact (request_retry_carries_the_proof Mock.float_of_decimal _ _ _ _ _ _ _ _
           _ _ H).
Defined.

(** The payment of 0.001 stays counted when the paid request is answered
    with an error. *)
Lemma request_keeps_the_payment_recorded_witness :
  let self := Mock.x402_client_with_payment in
  let failure := {| status_code := 500; text := "Internal server error";
                    resp_json := inr (JObj ∅) |} in
  let r := run_request Mock.float_of_decimal
             (Mock.mock_session Mock.mock_response_402 failure)
             (Mock.mock_w3 1) [] self "GET" "/api/paid" None None in
  In (PyFloat.micro 1000, Mock.TEST_RECIPIENT_ADDRESS, inr "0x01")
     (payments (http_log (fst r))) /\
  exists h h',
    _payment self = Some h /\
    _payment (fst (snd r)) = Some h' /\
    _total_spent h' = PyFloat.add (_total_spent h) (PyFloat.micro 1000) /\
    "0x01" ∈ _used_tx_hashes h' /\
    _max_budget h' = _max_budget h.
Proof.
  cbv zeta.
  assert (H : In (PyFloat.micro 1000, Mock.TEST_RECIPIENT_ADDRESS, inr "0x01")
                (payments (http_log (fst
                   (run_request Mock.float_of_decimal
                      (Mock.mock_session Mock.mock_response_402
                         {| status_code := 500;
                            text := "Internal server error";
                            resp_json := inr (JObj ∅) |})
                      (Mock.mock_w3 1) [] Mock.x402_client_with_payment "GET"
                      "/api/paid" None None)))))
    by (vm_compute; left; reflexivity).
  split; [ exact H | ].
  exact (request_keeps_the_payment_recorded Mock.float_of_decimal _ _ _ _ _ _
           _ _ _ _ _ H).
Defined.

(** A server that asks for a negative amount, -0.5, as a JSON number: the
    amount goes to [pay] as it is; [pay] asks for a transfer of -500000
    raw units and, the mocked chain confirming it, counts -0.5 as spent. *)
Lemma request_pays_what_the_answer_asks_witness :
  let self := Mock.x402_client_with_payment in
  let h := Mock.payment_handler (PyFloat.of_Z 1) PyFloat.zero in
  let minus_half := SFopp (PyFloat.micro 500000) in
  let details : gmap string json :=
    <["amount" := JFloat minus_half]>
      (<["recipient" := JStr Mock.TEST_RECIPIENT_ADDRESS]> ∅) in
  let srv := Mock.mock_session (Mock.payment_required details)
               Mock.mock_response_200 in
  let r := run_request Mock.float_of_decimal srv (Mock.mock_w3 1) [] self
             "GET" "/api/paid" None None in
  let paid := run_pay (Mock.mock_w3 1) [] h minus_half
                Mock.TEST_RECIPIENT_ADDRESS in
  (exists rest,
     http_log (fst r) =
       EvRequest (original_request self "GET" "/api/paid" None None)
         (inr (Mock.payment_required details))
       :: EvPay h minus_half Mock.TEST_RECIPIENT_ADDRESS (snd paid) :: rest) /\
  PyFloat.ltb minus_half PyFloat.zero = true /\
  to_raw minus_half = inr (-500000) /\
  snd (snd paid) = inr "0x01" /\
  _total_spent (fst (snd paid)) = minus_half.
Proof.
  cbv zeta. split.
  - apply (proj2 (request_pays_what_the_answer_asks Mock.float_of_decimal
                    (Mock.mock_session
                       (Mock.payment_required
                          (<["amount" := JFloat (SFopp (PyFloat.micro 500000))]>
                             (<["recipient" :=
                                  JStr Mock.TEST_RECIPIENT_ADDRESS]> ∅)))
                       Mock.mock_response_200)
                    (Mock.mock_w3 1) [] Mock.x402_client_with_payment
                    "GET" "/api/paid" None None)
             (Mock.payment_handler (PyFloat.of_Z 1) PyFloat.zero)
             (Mock.payment_required
                (<["amount" := JFloat (SFopp (PyFloat.micro 500000))]>
                   (<["recipient" := JStr Mock.TEST_RECIPIENT_ADDRESS]> ∅)))
             (Mock.payment_required_fields
                (<["amount" := JFloat (SFopp (PyFloat.micro 500000))]>
                   (<["recipient" := JStr Mock.TEST_RECIPIENT_ADDRESS]> ∅)))
             (<["amount" := JFloat (SFopp (PyFloat.micro 500000))]>
                (<["recipient" := JStr Mock.TEST_RECIPIENT_ADDRESS]> ∅))
             Mock.TEST_RECIPIENT_ADDRESS (SFopp (PyFloat.micro 500000))).
    + reflexivity.
    + reflexivity.
    + reflexivity.
    + reflexivity.
    + vm_compute. reflexivity.
    + vm_compute. reflexivity.
    + discriminate.
    + vm_compute. reflexivity.
  - repeat split; vm_compute; reflexivity.
Defined.
